(** * Obsidian RAG front end: pages, handlers and views

    A shallow embedding of the React pages of the repository
    (QueryPage, DocumentsPage, UploadPage, AdminPage) together with the
    properties their handlers and render functions satisfy.

    - JavaScript strings are sequences of UTF-16 code units ([list N]).
    - JavaScript Numbers are IEEE-754 binary64 values ([spec_float] with
      precision 53 and maximal exponent 1024).
    - An [async] handler is a resumption ([proc]): state updates, emitted
      effects (toasts, focus) and awaited requests whose continuation
      receives the settlement of the promise.
    - Objects used as dictionaries ([results], [uploading]) are [gmap]s.
    - Views keep the text a component renders; class names and icons are
      left out. *)

From Stdlib Require Import ZArith NArith List Ascii String SpecFloat Decimal Lia.
From stdpp Require Import base list gmap.

Set Default Proof Using "Type".
Local Open Scope N_scope.

(** ** Strings *)

Abbreviation jsstring := (list N).

(** An ASCII literal as a sequence of code units. *)
Definition js (s : string) : jsstring :=
  map N_of_ascii (list_ascii_of_string s).
Arguments js : simpl never.

(** WhiteSpace and LineTerminator code points of ECMAScript (all of them
    lie in the Basic Multilingual Plane, so each is one code unit). *)
Definition isWhiteSpace (c : N) : bool :=
  (c =? 9) || (c =? 10) || (c =? 11) || (c =? 12) || (c =? 13) ||
  (c =? 32) || (c =? 160) || (c =? 5760) ||
  ((8192 <=? c) && (c <=? 8202)) ||
  (c =? 8232) || (c =? 8233) || (c =? 8239) || (c =? 8287) ||
  (c =? 12288) || (c =? 65279).

Fixpoint trimStart (s : jsstring) : jsstring :=
  match s with
  | [] => []
  | c :: s' => if isWhiteSpace c then trimStart s' else s
  end.

Definition trimEnd (s : jsstring) : jsstring := rev (trimStart (rev s)).

(** [String.prototype.trim]. *)
Definition trim (s : jsstring) : jsstring := trimEnd (trimStart s).

(** [s.startsWith(t)] *)
Fixpoint startsWith (s t : jsstring) {struct t} : bool :=
  match t, s with
  | [], _ => true
  | _ :: _, [] => false
  | b :: t', a :: s' => (a =? b) && startsWith s' t'
  end.

(** [s.includes(t)]: [t] occurs in [s] at some position. *)
Fixpoint includes (s t : jsstring) : bool :=
  startsWith s t ||
  match s with
  | [] => false
  | _ :: s' => includes s' t
  end.

(** [s.split(sep)] for a separator of one code unit; the result always
    has at least one segment. *)
Fixpoint split (sep : N) (s : jsstring) : list jsstring :=
  match s with
  | [] => [[]]
  | c :: s' =>
      if c =? sep then [] :: split sep s'
      else match split sep s' with
           | seg :: rest => (c :: seg) :: rest
           | [] => [[c]]
           end
  end.

(** [Array.prototype.pop] as a read: the last element, [None] for
    [undefined] on an empty array. *)
Definition pop {A} (l : list A) : option A := last l.

(** [String.prototype.toLowerCase] is a built-in driven by the Unicode
    case tables; the pages are verified for any such mapping. *)
Class CaseMapping := toLowerCase : jsstring -> jsstring.

(** The mapping restricted to Basic Latin, used to evaluate examples. *)
Definition lowerUnit (c : N) : N :=
  if (65 <=? c) && (c <=? 90) then c + 32 else c.

Definition basicLatin : CaseMapping := map lowerUnit.

(** Decimal digits of a natural number as code units. *)
Fixpoint uintUnits (d : uint) : jsstring :=
  match d with
  | Nil => []
  | D0 d => 48 :: uintUnits d
  | D1 d => 49 :: uintUnits d
  | D2 d => 50 :: uintUnits d
  | D3 d => 51 :: uintUnits d
  | D4 d => 52 :: uintUnits d
  | D5 d => 53 :: uintUnits d
  | D6 d => 54 :: uintUnits d
  | D7 d => 55 :: uintUnits d
  | D8 d => 56 :: uintUnits d
  | D9 d => 57 :: uintUnits d
  end.

Definition decimal (n : N) : jsstring := uintUnits (N.to_uint n).

(** ** Numbers and values *)

Abbreviation number := spec_float.

Definition prec : Z := 53.
Definition emax : Z := 1024.

(** The Number value of a non-negative integer literal. *)
Definition ofN (n : N) : number := binary_normalize prec emax (Z.of_N n) 0 false.

(** [x < y] and [x / y] on Numbers. *)
Definition lt (x y : number) : bool := SFltb x y.
Definition div (x y : number) : number := SFdiv prec emax x y.

(** The digit generation of Number::toString for a positive finite value
    [m * 2^e] (shortest round-trip digits) is a built-in; the pages are
    verified for any such function. *)
Class NumberDigits := finiteToString : positive -> Z -> jsstring.

(** Number::toString(x) in radix 10. *)
Definition numberToString `{NumberDigits} (x : number) : jsstring :=
  match x with
  | S754_nan => js "NaN"
  | S754_zero _ => js "0"
  | S754_infinity false => js "Infinity"
  | S754_infinity true => js "-Infinity"
  | S754_finite false m e => finiteToString m e
  | S754_finite true m e => js "-" ++ finiteToString m e
  end.

(** [m * 2^e >= 10^21] *)
Definition atLeast1e21 (m : positive) (e : Z) : bool :=
  match e with
  | Zneg p => (10 ^ 21 * 2 ^ Zpos p <=? Zpos m)%Z
  | _ => (10 ^ 21 <=? Zpos m * 2 ^ e)%Z
  end.

(** The integer [n] for which [n / 10] is closest to [m * 2^e], the
    larger one when two are equally close. *)
Definition tenths (m : positive) (e : Z) : Z :=
  match e with
  | Zneg p => ((20 * Zpos m + 2 ^ Zpos p) / (2 * 2 ^ Zpos p))%Z
  | _ => (10 * Zpos m * 2 ^ e)%Z
  end.

(** [x.toFixed(1)]: the digits of [n] with a point before the last one,
    padded with a leading zero when [n] has a single digit. *)
Definition toFixed1 `{NumberDigits} (x : number) : jsstring :=
  match x with
  | S754_zero _ => js "0.0"
  | S754_finite s m e =>
      if atLeast1e21 m e then numberToString x
      else
        let n := Z.to_N (tenths m e) in
        (if s then js "-" else []) ++
        decimal (n / 10) ++ js "." ++ decimal (n mod 10)
  | _ => numberToString x
  end.

(** Values found in the fields of a JSON response. *)
Inductive value : Type :=
| VUndefined
| VNull
| VBoolean (b : bool)
| VNumber (x : number)
| VString (s : jsstring).

Definition ToBoolean (v : value) : bool :=
  match v with
  | VUndefined | VNull => false
  | VBoolean b => b
  | VNumber (S754_zero _) | VNumber S754_nan => false
  | VNumber _ => true
  | VString [] => false
  | VString _ => true
  end.

(** ToString, as applied by a template literal. *)
Definition ToString `{NumberDigits} (v : value) : jsstring :=
  match v with
  | VUndefined => js "undefined"
  | VNull => js "null"
  | VBoolean true => js "true"
  | VBoolean false => js "false"
  | VNumber x => numberToString x
  | VString s => s
  end.

(** The text React renders for a value used as a JSX child: strings and
    numbers are shown, booleans, null and undefined render nothing. *)
Definition jsxText `{NumberDigits} (v : value) : jsstring :=
  match v with
  | VNumber x => numberToString x
  | VString s => s
  | _ => []
  end.

(** Exact decimal expansion of [m * 2^e]; it agrees with the built-in
    digit generation on integers below 10^21 and on dyadic fractions with
    few digits, which is all the evaluated examples use. *)
Fixpoint fractionDigits (fuel : nat) (r d : N) : jsstring :=
  match fuel with
  | O => []
  | S fuel' =>
      if r =? 0 then []
      else decimal (10 * r / d) ++ fractionDigits fuel' (10 * r mod d) d
  end.

Definition exactDigits : NumberDigits := fun m e =>
  match e with
  | Zneg p =>
      let d := 2 ^ Npos p in
      let q := Npos m / d in
      let r := Npos m mod d in
      if r =? 0 then decimal q
      else decimal q ++ js "." ++ fractionDigits (Pos.to_nat p) r d
  | _ => decimal (Z.to_N (Zpos m * 2 ^ e))
  end.

(** ** Asynchronous handlers *)

Section Async.
Context {St Req Resp Err Eff : Type}.

(** How a promise settles. *)
Inductive settlement (A : Type) : Type :=
| Fulfilled (a : A)
| Rejected (e : Err).
Global Arguments Fulfilled {A} a.
Global Arguments Rejected {A} e.

(** The body of an [async] function over component state [St]:
    - [Update f]: a state setter ([setX(v)] or [setX(prev => ...)]);
    - [Emit e]: an effect outside the component state (toast, focus);
    - [Await r k]: [await] of one request, [k] is the rest of the body;
    - [AwaitAll rs k]: [await Promise.all([...])], the requests are
      issued together. *)
Inductive proc : Type :=
| Return
| Update (f : St -> St) (k : proc)
| Emit (e : Eff) (k : proc)
| Await (r : Req) (k : settlement Resp -> proc)
| AwaitAll (rs : list Req) (k : settlement (list Resp) -> proc).

(** Sequencing of statements. *)
Fixpoint seq (p q : proc) : proc :=
  match p with
  | Return => q
  | Update f k => Update f (seq k q)
  | Emit e k => Emit e (seq k q)
  | Await r k => Await r (fun o => seq (k o) q)
  | AwaitAll rs k => AwaitAll rs (fun o => seq (k o) q)
  end.

Definition update (f : St -> St) : proc := Update f Return.
Definition emit (e : Eff) : proc := Emit e Return.

(** A suspended call: the requests it waits for and its continuation. *)
Inductive task : Type :=
| Waiting (r : Req) (k : settlement Resp -> proc)
| WaitingAll (rs : list Req) (k : settlement (list Resp) -> proc).

(** Run a body on the current state up to its next [await]: the new
    state, the effects emitted on the way, and the suspended rest. *)
Fixpoint exec (p : proc) (st : St) : St * list Eff * option task :=
  match p with
  | Return => (st, [], None)
  | Update f k => exec k (f st)
  | Emit e k => let '(st', es, t) := exec k st in (st', e :: es, t)
  | Await r k => (st, [], Some (Waiting r k))
  | AwaitAll rs k => (st, [], Some (WaitingAll rs k))
  end.

(** *** One call run to completion

    The call is observed alone: each awaited request is answered by
    [server] (given the number of requests answered so far) before the
    body goes on. The trace records when requests are issued and when
    they settle. *)
Inductive event : Type :=
| Issued (r : Req)
| Settled (r : Req) (o : settlement Resp)
| Effect (e : Eff).

(** [Promise.all]: every value when all are fulfilled, else the first
    rejection. *)
Fixpoint all (os : list (settlement Resp)) : settlement (list Resp) :=
  match os with
  | [] => Fulfilled []
  | Rejected e :: _ => Rejected e
  | Fulfilled a :: os' =>
      match all os' with
      | Fulfilled l => Fulfilled (a :: l)
      | Rejected e => Rejected e
      end
  end.

Fixpoint answers (server : nat -> Req -> settlement Resp) (n : nat)
    (rs : list Req) : list (settlement Resp) :=
  match rs with
  | [] => []
  | r :: rs' => server n r :: answers server (S n) rs'
  end.

Fixpoint run (server : nat -> Req -> settlement Resp) (n : nat)
    (p : proc) (st : St) : St * list event * nat :=
  match p with
  | Return => (st, [], n)
  | Update f k => run server n k (f st)
  | Emit e k =>
      let '(st', t, n') := run server n k st in (st', Effect e :: t, n')
  | Await r k =>
      let o := server n r in
      let '(st', t, n') := run server (S n) (k o) st in
      (st', Issued r :: Settled r o :: t, n')
  | AwaitAll rs k =>
      let os := answers server n rs in
      let '(st', t, n') := run server (n + length rs)%nat (k (all os)) st in
      (st', map Issued rs ++ map (fun ro => Settled ro.1 ro.2) (zip rs os) ++ t, n')
  end.

(** The number of requests issued and not yet settlement after each event
    of a trace, starting from [cur]. *)
Fixpoint outstanding (cur : nat) (t : list event) : list nat :=
  match t with
  | [] => []
  | Issued _ :: t' => S cur :: outstanding (S cur) t'
  | Settled _ _ :: t' => pred cur :: outstanding (pred cur) t'
  | Effect _ :: t' => cur :: outstanding cur t'
  end.

(** The requests still in flight at the end of a trace. *)
Fixpoint balance (cur : nat) (t : list event) : nat :=
  match t with
  | [] => cur
  | Issued _ :: t' => balance (S cur) t'
  | Settled _ _ :: t' => balance (pred cur) t'
  | Effect _ :: t' => balance cur t'
  end.

(** The requests of a trace, in the order they were issued. *)
Fixpoint issued (t : list event) : list Req :=
  match t with
  | [] => []
  | Issued r :: t' => r :: issued t'
  | _ :: t' => issued t'
  end.

(** *** A mounted component

    The state of the component and the calls suspended on a request.
    A user event runs the handler the current view attaches to it (none
    when the control is disabled or not rendered); a settlement resumes
    one suspended call on the state of that moment. *)
Record runtime : Type := {
  current : St;
  inflight : list task;
}.

Definition opt_list {A} (o : option A) : list A :=
  match o with Some a => [a] | None => [] end.

Definition start (p : proc) (rt : runtime) : runtime :=
  let '(st, _, t) := exec p (current rt) in
  {| current := st; inflight := inflight rt ++ opt_list t |}.

Section Steps.
Context {Ev : Type} (handler : St -> Ev -> option proc).

Inductive step : runtime -> runtime -> Prop :=
| step_user rt ev p :
    handler (current rt) ev = Some p ->
    step rt (start p rt)
| step_settle rt i r k o :
    inflight rt !! i = Some (Waiting r k) ->
    step rt (start (k o) {| current := current rt;
                            inflight := delete i (inflight rt) |})
| step_settle_all rt i rs k o :
    inflight rt !! i = Some (WaitingAll rs k) ->
    step rt (start (k o) {| current := current rt;
                            inflight := delete i (inflight rt) |}).

Inductive reachable (init : runtime) : runtime -> Prop :=
| reach_init : reachable init init
| reach_step rt rt' : reachable init rt -> step rt rt' -> reachable init rt'.
End Steps.
End Async.

Arguments proc : clear implicits.
Arguments task : clear implicits.
Arguments runtime : clear implicits.
Arguments settlement : clear implicits.
Arguments event : clear implicits.

Declare Scope proc_scope.
Delimit Scope proc_scope with proc.
Bind Scope proc_scope with proc.
Notation "p ;; q" := (seq p q)
  (at level 100, q at level 200, right associativity) : proc_scope.

(** The rejection reason of an API call, as far as the pages inspect it:
    [err.response?.status] and [err.response?.data?.detail]. *)
Record error : Type := {
  status : option N;
  detail : option jsstring;
}.

(** ** QueryPage.js *)

Module QueryPage.

(** A citation of [res.data.citations], field by field. *)
Record citation : Type := {
  index : value;
  filename : value;
  file_type : value;
  page_number : value;
  timestamp : value;
  score : value;
  text_preview : value;
}.

(** An entry of the chat transcript; an absent [citations] property
    is [None]. *)
Record message : Type := {
  role : jsstring;
  content : value;
  citations : option (list citation);
}.

(** The [useState] cells of [QueryPage]. *)
Record state : Type := {
  messages : list message;
  input : jsstring;
  loading : bool;
}.

(** [api.post(path, { query, top_k })] *)
Record request : Type := {
  path : jsstring;
  query : jsstring;
  top_k : N;
}.

(** [res.data] *)
Record response : Type := {
  answer : value;
  data_citations : option (list citation);
}.

Inductive effect : Type :=
| PreventDefault                (* e.preventDefault() *)
| ToastError (msg : jsstring)   (* toast.error(msg) *)
| FocusInput.                   (* inputRef.current?.focus() *)

Abbreviation handler := (proc state request response error effect).

Definition setMessages (f : list message -> list message) (st : state) : state :=
  {| messages := f (messages st); input := input st; loading := loading st |}.
Definition setInput (v : jsstring) (st : state) : state :=
  {| messages := messages st; input := v; loading := loading st |}.
Definition setLoading (b : bool) (st : state) : state :=
  {| messages := messages st; input := input st; loading := b |}.

Definition userMessage (q : jsstring) : message :=
  {| role := js "user"; content := VString q; citations := None |}.

Definition answerMessage (res : response) : message :=
  {| role := js "assistant";
     content := answer res;
     citations := data_citations res |}.

Definition errorText : jsstring :=
  js "System error: Unable to process query. Please try again.".

Definition errorMessage : message :=
  {| role := js "assistant"; content := VString errorText; citations := None |}.

(** The part of [sendQuery] after [await api.post(...)]: the [try]
    continuation, the [catch] and the [finally] blocks. *)
Definition sendQuery_settle (o : settlement error response) : handler :=
  (match o with
   | Fulfilled res =>
       update (setMessages (fun prev => prev ++ [answerMessage res]))
   | Rejected err =>
       emit (ToastError (js "Query failed"));;
       update (setMessages (fun prev => prev ++ [errorMessage]))
   end;;
   update (setLoading false);;
   emit FocusInput)%proc.

(** [sendQuery], closed over the [input] and [loading] of the render
    whose form was submitted. *)
Definition sendQuery (st : state) : handler :=
  (emit PreventDefault;;
   if negb (ToBoolean (VString (trim (input st)))) || loading st then Return
   else
     let query := trim (input st) in
     update (setInput []);;
     update (setMessages (fun prev => prev ++ [userMessage query]));;
     update (setLoading true);;
     Await {| path := js "/query"; query := query; top_k := 5 |}
           sendQuery_settle)%proc.

(** *** Views *)

Record card : Type := {
  testid : jsstring;
  title : jsstring;
  meta : jsstring;
  expanded : bool;
  preview : option jsstring;
}.

Record bubble : Type := {
  isUser : bool;
  header : option jsstring;
  body : jsstring;
  references : option (list card);
}.

Section Views.
Context `{NumberDigits}.

(** [CitationCard]; [open] is the card's own [useState(false)] cell.
    The preview sits in the collapsible content, which is rendered
    only while the card is open. *)
Definition CitationCard (c : citation) (open : bool) : card :=
  {| testid := js "citation-" ++ ToString (index c);
     title := js "[" ++ jsxText (index c) ++ js "] " ++ jsxText (filename c);
     meta :=
       (if ToBoolean (page_number c)
        then js "Page " ++ ToString (page_number c) else []) ++
       (if ToBoolean (timestamp c)
        then js " " ++ ToString (timestamp c) else []) ++
       (if ToBoolean (score c)
        then js " // Score: " ++ ToString (score c) else []);
     expanded := open;
     preview := if open then Some (jsxText (text_preview c)) else None |}.

(** [MessageBubble]; [isOpen] gives the [open] cell of each card. *)
Definition MessageBubble (isOpen : citation -> bool) (m : message) : bubble :=
  let user := bool_decide (role m = js "user") in
  {| isUser := user;
     header := if user then None else Some (js "OBSIDIAN AI");
     body := jsxText (content m);
     references :=
       match citations m with
       | Some cs =>
           if (0 <? length cs)%nat
           then Some (map (fun c => CitationCard c (isOpen c)) cs)
           else None
       | None => None
       end |}.

(** The transcript as rendered by [QueryPage]. *)
Definition transcript (isOpen : citation -> bool) (st : state) : list bubble :=
  map (MessageBubble isOpen) (messages st).

(** A freshly mounted card is closed. *)
Definition closed : citation -> bool := fun _ => false.

(** The text a card shows somewhere. *)
Definition shows (k : card) (t : jsstring) : bool :=
  includes (title k) t || includes (meta k) t ||
  match preview k with
  | Some p => includes p t
  | None => false
  end.
End Views.


(** *** The rendered controls *)

Inductive uievent : Type :=
| Submit                          (* onSubmit of the form *)
| ChangeInput (v : jsstring)      (* onChange of the query input *)
| ClickSuggestion (q : jsstring)  (* onClick of a suggested question *)
| ClickClear.                     (* onClick of the CLEAR button *)

(** The questions offered while the transcript is empty. *)
Definition suggestions : list jsstring :=
  [js "Summarize the key findings";
   js "What are the main topics covered?";
   js "List all mentioned entities";
   js "Compare document contents"].

(** [disabled={loading}] on the input. *)
Definition inputDisabled (st : state) : bool := loading st.

(** [disabled={!input.trim() || loading}] on the submit button. *)
Definition submitDisabled (st : state) : bool :=
  negb (ToBoolean (VString (trim (input st)))) || loading st.

(** [messages.length > 0]: the CLEAR button is rendered. *)
Definition clearShown (st : state) : bool := (0 <? length (messages st))%nat.

(** [messages.length === 0]: the suggestions are rendered. *)
Definition suggestionsShown (st : state) : bool :=
  (length (messages st) =? 0)%nat.

(** The handler a user event reaches. A submission is handed to
    [sendQuery] whatever the state of the button: the handler has its own
    guard. A disabled input takes no change; the CLEAR button and the
    suggestions exist only when rendered. *)
Definition controls (st : state) (ev : uievent) : option handler :=
  match ev with
  | Submit => Some (sendQuery st)
  | ChangeInput v =>
      if inputDisabled st then None else Some (update (setInput v))
  | ClickSuggestion q =>
      if suggestionsShown st && bool_decide (q ∈ suggestions)
      then Some (update (setInput q)) else None
  | ClickClear =>
      if clearShown st then Some (update (setMessages (fun _ => []))) else None
  end.

Definition initial : state :=
  {| messages := []; input := []; loading := false |}.

(** The page after mounting: no request is made on mount. *)
Definition mounted : runtime state request response error effect :=
  {| current := initial; inflight := [] |}.

(** A suspended [sendQuery]: its request is a POST to [/query] with
    [top_k] 5 and a query that is not empty and is its own trim. *)
Definition queryTask (t : task state request response error effect) : Prop :=
  exists r, t = Waiting r sendQuery_settle /\
    path r = js "/query" /\ top_k r = 5 /\
    query r <> [] /\ trim (query r) = query r.

(** An entry of the transcript as the handlers write it: a question,
    which is a non-empty trimmed string without citations, or an entry of
    the assistant. *)
Definition wellFormed (m : message) : Prop :=
  (role m = js "user" /\ citations m = None /\
   exists q, content m = VString q /\ q <> [] /\ trim q = q) \/
  role m = js "assistant".

(** The reply [sendQuery] appends for a settlement. *)
Definition reply (o : settlement error response) : message :=
  match o with
  | Fulfilled res => answerMessage res
  | Rejected _ => errorMessage
  end.

Definition pageInvariant
    (rt : runtime state request response error effect) : Prop :=
  Forall queryTask (inflight rt) /\
  length (inflight rt) = (if loading (current rt) then 1 else 0)%nat /\
  Forall wellFormed (messages (current rt)).

End QueryPage.

(** ** DocumentsPage.js *)

Module DocumentsPage.

(** An entry of [GET /documents]. *)
Record document : Type := {
  id : jsstring;
  filename : jsstring;
  file_type : jsstring;
  file_size : number;
  total_chunks : value;
  status : value;
  uploaded_at : value;
}.

(** The [useState] cells of [DocumentsPage]. *)
Record state : Type := {
  docs : list document;
  loading : bool;
  search : jsstring;
  deleting : option jsstring;
}.

Inductive request : Type :=
| GetDocuments                     (* api.get("/documents") *)
| DeleteDocument (url : jsstring). (* api.delete(`/documents/${doc.id}`) *)

(** [res.data]; the body of a delete response is not read. *)
Record response : Type := { data : list document }.

Inductive effect : Type :=
| ToastSuccess (msg : jsstring)
| ToastError (msg : jsstring).

Abbreviation handler := (proc state request response error effect).

Definition setDocs (f : list document -> list document) (st : state) : state :=
  {| docs := f (docs st); loading := loading st;
     search := search st; deleting := deleting st |}.
Definition setLoading (b : bool) (st : state) : state :=
  {| docs := docs st; loading := b;
     search := search st; deleting := deleting st |}.
Definition setSearch (s : jsstring) (st : state) : state :=
  {| docs := docs st; loading := loading st;
     search := s; deleting := deleting st |}.
Definition setDeleting (d : option jsstring) (st : state) : state :=
  {| docs := docs st; loading := loading st;
     search := search st; deleting := d |}.

(** [formatSize] of DocumentsPage.js. *)
Definition formatSize `{NumberDigits} (bytes : number) : jsstring :=
  if negb (ToBoolean (VNumber bytes)) then js "0 B"
  else if lt bytes (ofN 1024) then numberToString bytes ++ js " B"
  else if lt bytes (ofN 1048576)
       then toFixed1 (div bytes (ofN 1024)) ++ js " KB"
       else toFixed1 (div bytes (ofN 1048576)) ++ js " MB".

Definition fetchDocs : handler :=
  (update (setLoading true);;
   Await GetDocuments (fun o =>
     match o with
     | Fulfilled res => update (setDocs (fun _ => data res))
     | Rejected _ => emit (ToastError (js "Failed to load documents"))
     end;;
     update (setLoading false)))%proc.

(** The part of [deleteDoc] after [await api.delete(...)]. *)
Definition deleteDoc_settle (doc : document)
    (o : settlement error response) : handler :=
  (match o with
   | Fulfilled _ =>
       update (setDocs (fun prev => filter (fun d => id d <> id doc) prev));;
       emit (ToastSuccess (filename doc ++ js " removed"))
   | Rejected _ => emit (ToastError (js "Delete failed"))
   end;;
   update (setDeleting None))%proc.

Definition deleteDoc (doc : document) : handler :=
  (update (setDeleting (Some (id doc)));;
   Await (DeleteDocument (js "/documents/" ++ id doc)) (deleteDoc_settle doc))%proc.

Section Views.
Context `{CaseMapping}.

(** The predicate of [docs.filter(...)] in the render. *)
Definition matches (search : jsstring) (d : document) : bool :=
  includes (toLowerCase (filename d)) (toLowerCase search) ||
  includes (toLowerCase (file_type d)) (toLowerCase search).

Definition filtered (st : state) : list document :=
  filter (fun d => matches (search st) d) (docs st).

(** The rows of the table: a spinner replaces them while loading. *)
Definition rows (st : state) : list document :=
  if loading st then [] else filtered st.

End Views.


(** *** The rendered controls *)

Inductive uievent : Type :=
| ClickRefresh                 (* onClick of the refresh button *)
| ChangeSearch (s : jsstring)  (* onChange of the search input *)
| ClickDelete (i : nat).       (* Delete in the menu of the i-th row *)

(** [disabled={deleting === doc.id}] on the Delete item of a row. *)
Definition deleteDisabled (st : state) (doc : document) : bool :=
  bool_decide (deleting st = Some (id doc)).

Section Controls.
Context `{CaseMapping}.

(** The handler a user event reaches; a Delete item exists for each
    displayed row and does nothing while disabled. *)
Definition controls (st : state) (ev : uievent) : option handler :=
  match ev with
  | ClickRefresh => Some fetchDocs
  | ChangeSearch s => Some (update (setSearch s))
  | ClickDelete i =>
      match rows st !! i with
      | Some doc => if deleteDisabled st doc then None else Some (deleteDoc doc)
      | None => None
      end
  end.

End Controls.

Definition initial : state :=
  {| docs := []; loading := true; search := []; deleting := None |}.

(** The page after mounting: the effect hook has called [fetchDocs]. *)
Definition mounted : runtime state request response error effect :=
  start fetchDocs {| current := initial; inflight := [] |}.

End DocumentsPage.

(** ** UploadPage.js *)

Module UploadPage.

(** [getFileType]; [None] stands for the TypeError of calling a method
    on [undefined], should [pop] find the array empty. *)
Definition getFileType `{CaseMapping} (name : jsstring) : option jsstring :=
  match pop (split 46 name) with
  | None => None
  | Some last =>
      let ext := toLowerCase last in
      Some (
        if bool_decide (ext ∈ [js "pdf"]) then js "pdf"
        else if bool_decide (ext ∈ [js "docx"; js "doc"]) then js "docx"
        else if bool_decide (ext ∈ [js "png"; js "jpg"; js "jpeg"; js "gif";
                                    js "bmp"; js "webp"])
             then js "image"
        else if bool_decide (ext ∈ [js "mp3"; js "wav"; js "ogg"; js "m4a";
                                    js "flac"])
             then js "audio"
        else js "unknown")
  end.

(** [formatSize] of UploadPage.js. *)
Definition formatSize `{NumberDigits} (bytes : number) : jsstring :=
  if lt bytes (ofN 1024) then numberToString bytes ++ js " B"
  else if lt bytes (ofN 1048576)
       then toFixed1 (div bytes (ofN 1024)) ++ js " KB"
       else toFixed1 (div bytes (ofN 1048576)) ++ js " MB".

(** A browser [File], as far as the page reads it. *)
Record file : Type := {
  file_name : jsstring;
  file_size : number;
}.

(** An entry of the upload queue. *)
Record fileItem : Type := {
  item_file : file;
  id : jsstring;
  name : jsstring;
  size : number;
  type : jsstring;
}.

(** [res.data] of an upload. *)
Record response : Type := { total_chunks : value }.

(** An entry of [results]. *)
Inductive result : Type :=
| Success (data : response)
| Failure (error : jsstring).

(** The [useState] cells of [UploadPage]; [uploading] and [results] are
    objects keyed by the item ids. *)
Record state : Type := {
  files : list fileItem;
  dragActive : bool;
  uploading : gmap jsstring bool;
  results : gmap jsstring result;
}.

(** [api.post("/documents/upload", formData)] *)
Inductive request : Type := Upload (f : file).

Inductive effect : Type :=
| ToastSuccess (msg : jsstring)
| ToastError (msg : jsstring).

Abbreviation handler := (proc state request response error effect).

Definition setFiles (f : list fileItem -> list fileItem) (st : state) : state :=
  {| files := f (files st); dragActive := dragActive st;
     uploading := uploading st; results := results st |}.
Definition setDragActive (b : bool) (st : state) : state :=
  {| files := files st; dragActive := b;
     uploading := uploading st; results := results st |}.
Definition setUploading (f : gmap jsstring bool -> gmap jsstring bool)
    (st : state) : state :=
  {| files := files st; dragActive := dragActive st;
     uploading := f (uploading st); results := results st |}.
Definition setResults (f : gmap jsstring result -> gmap jsstring result)
    (st : state) : state :=
  {| files := files st; dragActive := dragActive st;
     uploading := uploading st; results := f (results st) |}.

Section Page.
Context `{CaseMapping} `{NumberDigits}.

(** One queue entry for a file; [rid] is the id drawn from
    [Math.random()]. *)
Definition queueItem (f : file) (rid : jsstring) : option fileItem :=
  ty ← getFileType (file_name f);
  Some {| item_file := f; id := rid; name := file_name f;
          size := file_size f; type := ty |}.

(** [handleFiles]; [rids] are the random ids, one per file. A throw in
    the [map] callback leaves the state as it was. *)
Definition handleFiles (newFiles : list file) (rids : list jsstring)
    (st : state) : state :=
  match mapM (fun fr => queueItem fr.1 fr.2) (zip newFiles rids) with
  | Some fileArray => setFiles (fun prev => prev ++ fileArray) st
  | None => st
  end.

Definition removeFile (rid : jsstring) (st : state) : state :=
  setResults (fun prev => delete rid prev)
    (setFiles (fun prev => filter (fun f => id f <> rid) prev) st).

(** [err.response?.data?.detail || "Upload failed"] *)
Definition failureText (err : error) : jsstring :=
  match detail err with
  | Some (c :: s) => c :: s
  | _ => js "Upload failed"
  end.

(** The part of [uploadFile] after [await api.post(...)]. *)
Definition uploadFile_settle (fileItem : fileItem)
    (o : settlement error response) : handler :=
  (match o with
   | Fulfilled res =>
       update (setResults (fun prev => <[id fileItem := Success res]> prev));;
       emit (ToastSuccess (name fileItem ++ js " indexed (" ++
                           ToString (total_chunks res) ++ js " chunks)"))
   | Rejected err =>
       update (setResults (fun prev =>
                 <[id fileItem := Failure (failureText err)]> prev));;
       emit (ToastError (js "Failed to upload " ++ name fileItem))
   end;;
   update (setUploading (fun prev => <[id fileItem := false]> prev)))%proc.

Definition uploadFile (fileItem : fileItem) : handler :=
  (update (setUploading (fun prev => <[id fileItem := true]> prev));;
   Await (Upload (item_file fileItem)) (uploadFile_settle fileItem))%proc.

(** The queue entries without a result yet. *)
Definition pending (st : state) : list fileItem :=
  filter (fun f => results st !! id f = None) (files st).

(** [uploadAll], closed over the [files] and [results] of the render
    whose button was clicked: a [for] loop that awaits each upload. *)
Definition uploadAll (st : state) : handler :=
  foldr (fun f rest => uploadFile f;; rest)%proc Return (pending st).

End Page.


(** [disabled={files.every((f) => results[f.id])}] on PROCESS ALL. *)
Definition processAllDisabled (st : state) : bool :=
  forallb (fun f => bool_decide (is_Some (results st !! id f))) (files st).

End UploadPage.

(** ** AdminPage.js *)

Module AdminPage.

(** A row of the audit log or of the user table. *)
Record entry : Type := {
  id : value;
  fields : list (jsstring * value);
}.

(** The [useState] cells of [AdminPage]. *)
Record state : Type := {
  logs : list entry;
  users : list entry;
  loading : bool;
  rebuilding : bool;
  tab : jsstring;
}.

Inductive request : Type :=
| GetAuditLogs   (* api.get("/admin/audit-logs") *)
| GetUsers       (* api.get("/admin/users") *)
| PostRebuild.   (* api.post("/admin/rebuild-index") *)

#[global] Instance request_eq_dec : EqDecision request.
Proof. solve_decision. Defined.

(** [res.data]: a list of rows, or the object with the [message] of a
    rebuild. *)
Inductive response : Type :=
| Rows (l : list entry)
| Message (message : value).

Definition rowsOf (res : response) : list entry :=
  match res with Rows l => l | Message _ => [] end.

Definition messageOf (res : response) : value :=
  match res with Message m => m | Rows _ => VUndefined end.

Inductive effect : Type :=
| ToastSuccess (msg : value)
| ToastError (msg : jsstring).

Abbreviation handler := (proc state request response error effect).

Definition setLogs (l : list entry) (st : state) : state :=
  {| logs := l; users := users st; loading := loading st;
     rebuilding := rebuilding st; tab := tab st |}.
Definition setUsers (l : list entry) (st : state) : state :=
  {| logs := logs st; users := l; loading := loading st;
     rebuilding := rebuilding st; tab := tab st |}.
Definition setLoading (b : bool) (st : state) : state :=
  {| logs := logs st; users := users st; loading := b;
     rebuilding := rebuilding st; tab := tab st |}.
Definition setRebuilding (b : bool) (st : state) : state :=
  {| logs := logs st; users := users st; loading := loading st;
     rebuilding := b; tab := tab st |}.
Definition setTab (t : jsstring) (st : state) : state :=
  {| logs := logs st; users := users st; loading := loading st;
     rebuilding := rebuilding st; tab := t |}.

(** The part of [fetchData] after [await Promise.all([...])]. *)
Definition fetchData_settle (o : settlement error (list response)) : handler :=
  (match o with
   | Fulfilled (logsRes :: usersRes :: _) =>
       update (setLogs (rowsOf logsRes));;
       update (setUsers (rowsOf usersRes))
   | Fulfilled _ => Return
   | Rejected err =>
       if bool_decide (status err = Some 403)
       then emit (ToastError (js "Admin access required"))
       else Return
   end;;
   update (setLoading false))%proc.

Definition fetchData : handler :=
  (update (setLoading true);;
   AwaitAll [GetAuditLogs; GetUsers] fetchData_settle)%proc.

(** The part of [rebuildIndex] after [await api.post(...)]; the call of
    [fetchData] closes the [finally] block. *)
Definition rebuildIndex_settle (o : settlement error response) : handler :=
  (match o with
   | Fulfilled res => emit (ToastSuccess (messageOf res))
   | Rejected _ => emit (ToastError (js "Rebuild failed"))
   end;;
   update (setRebuilding false);;
   fetchData)%proc.

Definition rebuildIndex : handler :=
  (update (setRebuilding true);;
   Await PostRebuild rebuildIndex_settle)%proc.

(** *** The rendered controls *)

(** [user?.role], from the authentication context. *)
Definition isAdmin (role : option jsstring) : bool :=
  bool_decide (role = Some (js "admin")).

(** [disabled={rebuilding}] on the rebuild button. *)
Definition rebuildDisabled (st : state) : bool := rebuilding st.

Inductive uievent : Type :=
| ClickRebuild
| ClickRefresh
| SelectTab (t : jsstring).

(** The handler a user event reaches. Without the admin role the page
    renders the access-denied panel and none of the controls; a click on
    a disabled button is not delivered; the refresh button belongs to the
    content of the [logs] tab. *)
Definition controls (role : option jsstring) (st : state) (ev : uievent)
    : option handler :=
  if isAdmin role then
    match ev with
    | ClickRebuild => if rebuildDisabled st then None else Some rebuildIndex
    | ClickRefresh =>
        if bool_decide (tab st = js "logs") then Some fetchData else None
    | SelectTab t => Some (update (setTab t))
    end
  else None.

Definition initial : state :=
  {| logs := []; users := []; loading := true; rebuilding := false;
     tab := js "logs" |}.

(** The page after mounting: the effect hook has called [fetchData]. *)
Definition mounted : runtime state request response error effect :=
  start fetchData {| current := initial; inflight := [] |}.

(** The rebuild requests a runtime is waiting for. *)
Definition isRebuild (t : task state request response error effect) : bool :=
  match t with
  | Waiting PostRebuild _ => true
  | Waiting _ _ => false
  | WaitingAll rs _ => bool_decide (PostRebuild ∈ rs)
  end.

Definition rebuildsInFlight (rt : runtime state request response error effect) : nat :=
  length (filter (fun t => isRebuild t) (inflight rt)).

(** The calls a mounted admin page can be waiting for. *)
Definition knownTask (t : task state request response error effect) : Prop :=
  t = Waiting PostRebuild rebuildIndex_settle \/
  t = WaitingAll [GetAuditLogs; GetUsers] fetchData_settle.

(** The invariant of the page: only known calls are suspended, and the
    [rebuilding] flag counts the rebuild requests in flight. *)
Definition pageInvariant (rt : runtime state request response error effect) : Prop :=
  Forall knownTask (inflight rt) /\
  rebuildsInFlight rt = (if rebuilding (current rt) then 1 else 0)%nat.

End AdminPage.

(** ** Statements about the rendered answer *)

Section Displayed.
Context `{NumberDigits}.

(** A card displays every field of its citation: its index, file name
    and score, its page number or its timestamp, and its preview. *)
Definition displaysAll (k : QueryPage.card) (c : QueryPage.citation) : Prop :=
  QueryPage.shows k (jsxText (QueryPage.index c)) = true /\
  QueryPage.shows k (jsxText (QueryPage.filename c)) = true /\
  QueryPage.shows k (ToString (QueryPage.score c)) = true /\
  (QueryPage.shows k (ToString (QueryPage.page_number c)) = true \/
   QueryPage.shows k (ToString (QueryPage.timestamp c)) = true) /\
  QueryPage.shows k (jsxText (QueryPage.text_preview c)) = true.

(** The bubble mounted for the answer of [res] shows the answer and one
    card per citation, in order, each displaying all of its fields. *)
Definition answerFullyDisplayed (res : QueryPage.response) : Prop :=
  let b := QueryPage.MessageBubble QueryPage.closed (QueryPage.answerMessage res) in
  QueryPage.body b = jsxText (QueryPage.answer res) /\
  Forall2 displaysAll
    (default [] (QueryPage.references b))
    (default [] (QueryPage.data_citations res)).

End Displayed.

(** A response with one citation, used to evaluate the views. *)
Definition sampleCitation : QueryPage.citation :=
  {| QueryPage.index := VNumber (ofN 1);
     QueryPage.filename := VString (js "a.pdf");
     QueryPage.file_type := VString (js "pdf");
     QueryPage.page_number := VNumber (ofN 2);
     QueryPage.timestamp := VNull;
     QueryPage.score := VNumber (div (ofN 3) (ofN 4));
     QueryPage.text_preview := VString (js "alpha beta") |}.

Definition sampleResponse : QueryPage.response :=
  {| QueryPage.answer := VString (js "See [1].");
     QueryPage.data_citations := Some [sampleCitation] |}.

(** ** Statements about the document list and the size format *)

(** [s] contains [t] when case is ignored: the lower-cased [t] occurs in
    the lower-cased [s]. *)
Definition containsIgnoringCase `{CaseMapping} (s t : jsstring) : Prop :=
  exists pre post, toLowerCase s = pre ++ toLowerCase t ++ post.

(** A Number that is finite and not negative ([+0] and [-0] included). *)
Definition nonNegativeFinite (x : number) : bool :=
  match x with
  | S754_zero _ => true
  | S754_finite false _ _ => true
  | _ => false
  end.

Definition sampleDocument (i n t : string) : DocumentsPage.document :=
  {| DocumentsPage.id := js i;
     DocumentsPage.filename := js n;
     DocumentsPage.file_type := js t;
     DocumentsPage.file_size := ofN 1536;
     DocumentsPage.total_chunks := VNumber (ofN 3);
     DocumentsPage.status := VString (js "indexed");
     DocumentsPage.uploaded_at := VString (js "2026-01-05T10:00:00") |}.

Definition sampleDocs : list DocumentsPage.document :=
  [sampleDocument "d1" "Report.PDF" "pdf";
   sampleDocument "d2" "notes.docx" "docx";
   sampleDocument "d3" "talk.mp3" "audio"].

Definition sampleDocState (search : string) : DocumentsPage.state :=
  {| DocumentsPage.docs := sampleDocs;
     DocumentsPage.loading := false;
     DocumentsPage.search := js search;
     DocumentsPage.deleting := None |}.

(** ** Statements about the upload queue *)

(** The modalities of a document. *)
Definition modalities : list jsstring :=
  [js "pdf"; js "docx"; js "image"; js "audio"].

(** The extensions [getFileType] recognises. *)
Definition knownExtensions : list jsstring :=
  [js "pdf"; js "docx"; js "doc"; js "png"; js "jpg"; js "jpeg"; js "gif";
   js "bmp"; js "webp"; js "mp3"; js "wav"; js "ogg"; js "m4a"; js "flac"].

(** The file name is classified with one of the modalities. *)
Definition classifiedAsModality `{CaseMapping} (name : jsstring) : Prop :=
  exists ty, UploadPage.getFileType name = Some ty /\ ty ∈ modalities.



Definition sampleFile (n : string) : UploadPage.file :=
  {| UploadPage.file_name := js n; UploadPage.file_size := ofN 1536 |}.

Definition sampleItem (i n t : string) : UploadPage.fileItem :=
  {| UploadPage.item_file := sampleFile n;
     UploadPage.id := js i;
     UploadPage.name := js n;
     UploadPage.size := ofN 1536;
     UploadPage.type := js t |}.

(** A queue of two files, none uploaded yet. *)
Definition sampleQueue : UploadPage.state :=
  {| UploadPage.files := [sampleItem "k1" "a.pdf" "pdf"; sampleItem "k2" "b.png" "image"];
     UploadPage.dragActive := false;
     UploadPage.uploading := ∅;
     UploadPage.results := ∅ |}.

(** A server that indexes every upload into three chunks. *)
Definition sampleServer (n : nat) (r : UploadPage.request)
    : settlement error UploadPage.response :=
  Fulfilled {| UploadPage.total_chunks := VNumber (ofN 3) |}.

(** ** Statements about the admin page *)

Abbreviation adminRuntime :=
  (runtime AdminPage.state AdminPage.request AdminPage.response error
           AdminPage.effect).

(** The page of an administrator right after a click on the rebuild
    button. *)
Definition rebuildClicked : adminRuntime :=
  start AdminPage.rebuildIndex AdminPage.mounted.

(** ** Sidebar.js *)

Module Sidebar.

Record navItem : Type := {
  path : jsstring;
  label : jsstring;
}.

Definition navItems : list navItem :=
  [{| path := js "/"; label := js "DASHBOARD" |};
   {| path := js "/upload"; label := js "UPLOAD" |};
   {| path := js "/query"; label := js "ASK" |};
   {| path := js "/documents"; label := js "DOCUMENTS" |};
   {| path := js "/admin"; label := js "ADMIN" |}].

(** A rendered navigation button: where a click navigates, whether it
    is highlighted, the label beside the icon (expanded side bar) or in
    the tooltip (collapsed side bar). *)
Record navButton : Type := {
  testid : jsstring;
  target : jsstring;
  active : bool;
  text : option jsstring;
  tooltip : option jsstring;
}.

Section Render.
Context `{CaseMapping}.

(** The callback of [navItems.map]: [None] is the [null] returned for
    the admin entry when [user?.role] is not ["admin"]. *)
Definition renderItem (role : option jsstring) (pathname : jsstring)
    (collapsed : bool) (item : navItem) : option navButton :=
  let isActive := bool_decide (pathname = path item) in
  let isAdmin := bool_decide (path item = js "/admin") in
  if isAdmin && negb (bool_decide (role = Some (js "admin"))) then None
  else Some {| testid := js "nav-" ++ toLowerCase (label item);
               target := path item;
               active := isActive;
               text := if collapsed then None else Some (label item);
               tooltip := if collapsed then Some (label item) else None |}.

(** The buttons of the [nav] element. *)
Definition Sidebar (role : option jsstring) (pathname : jsstring)
    (collapsed : bool) : list navButton :=
  omap (renderItem role pathname collapsed) navItems.

End Render.

End Sidebar.

(** ** App.js: the authentication context *)

Module App.

(** The key of the session token in [localStorage]. *)
Definition tokenKey : jsstring := js "obsidian_token".

(** The user object of the authentication responses. *)
Record account : Type := {
  username : jsstring;
  role : jsstring;
}.

(** The [useState] cells of [AuthProvider], and the browser's
    [localStorage] the provider reads and writes. *)
Record state : Type := {
  token : option jsstring;
  user : option account;
  loading : bool;
  localStorage : gmap jsstring jsstring;
}.

(** [axios.get(`${API}/auth/me`, { headers: { Authorization } })] *)
Record request : Type := { authorization : jsstring }.

Inductive effect : Type := .

Abbreviation handler := (proc state request account error effect).

Definition setToken (t : option jsstring) (st : state) : state :=
  {| token := t; user := user st; loading := loading st;
     localStorage := localStorage st |}.
Definition setUser (u : option account) (st : state) : state :=
  {| token := token st; user := u; loading := loading st;
     localStorage := localStorage st |}.
Definition setLoading (b : bool) (st : state) : state :=
  {| token := token st; user := user st; loading := b;
     localStorage := localStorage st |}.
Definition setItem (k v : jsstring) (st : state) : state :=
  {| token := token st; user := user st; loading := loading st;
     localStorage := <[k := v]> (localStorage st) |}.
Definition removeItem (k : jsstring) (st : state) : state :=
  {| token := token st; user := user st; loading := loading st;
     localStorage := delete k (localStorage st) |}.

(** The provider when the page loads: the token cell starts from
    [localStorage.getItem("obsidian_token")]. *)
Definition initial (storage : gmap jsstring jsstring) : state :=
  {| token := storage !! tokenKey; user := None; loading := true;
     localStorage := storage |}.

(** Truthiness of the token cell: [null] and the empty string are not. *)
Definition hasToken (st : state) : bool :=
  match token st with
  | Some (_ :: _) => true
  | _ => false
  end.

Definition logout : handler :=
  (update (setToken None);;
   update (setUser None);;
   update (removeItem tokenKey))%proc.

Definition login (newToken : jsstring) (userData : account) : handler :=
  (update (setItem tokenKey newToken);;
   update (setToken (Some newToken));;
   update (setUser (Some userData)))%proc.

(** The part of the effect after the session check has settled. *)
Definition checkSession_settle (o : settlement error account) : handler :=
  match o with
  | Fulfilled res =>
      (update (setUser (Some res));; update (setLoading false))%proc
  | Rejected _ =>
      (logout;; update (setLoading false))%proc
  end.

(** The effect on [token], closed over the token of the render that
    scheduled it. *)
Definition checkSession (st : state) : handler :=
  match token st with
  | Some (c :: t) =>
      Await {| authorization := js "Bearer " ++ c :: t |} checkSession_settle
  | _ => update (setLoading false)
  end.

(** [useApi]: the [Authorization] header of the client, if any. *)
Definition useApi (st : state) : option jsstring :=
  match token st with
  | Some (c :: t) => Some (js "Bearer " ++ c :: t)
  | _ => None
  end.

(** What [ProtectedRoute] renders. *)
Inductive routed : Type :=
| Initializing   (* the SYSTEM INITIALIZING panel *)
| ToLogin        (* <Navigate to="/login" replace /> *)
| Children.

Definition ProtectedRoute (st : state) : routed :=
  if loading st then Initializing
  else if hasToken st then Children
  else ToLogin.

(** What can happen to a mounted provider: a page calls [login] or
    [logout], or the effect on the token runs. *)
Inductive uievent : Type :=
| CallLogin (newToken : jsstring) (userData : account)
| CallLogout
| RunEffect.

Definition controls (st : state) (ev : uievent) : option handler :=
  match ev with
  | CallLogin t u => Some (login t u)
  | CallLogout => Some logout
  | RunEffect => Some (checkSession st)
  end.

(** The provider after mounting on a given storage: the effect has run
    once. *)
Definition mounted (storage : gmap jsstring jsstring)
    : runtime state request account error effect :=
  start (checkSession (initial storage))
        {| current := initial storage; inflight := [] |}.

(** The invariant of the provider: the token cell agrees with the token
    in [localStorage], and every suspended call is a session check. *)
Definition authInvariant (rt : runtime state request account error effect)
    : Prop :=
  token (current rt) = localStorage (current rt) !! tokenKey /\
  Forall (fun t => exists r, t = Waiting r checkSession_settle) (inflight rt).

End App.

(** ** LoginPage.js *)

Module LoginPage.

(** The [useState] cells of [LoginPage]. *)
Record state : Type := {
  isRegister : bool;
  email : jsstring;
  password : jsstring;
  username : jsstring;
  loading : bool;
}.

(** [axios.post(url, payload)]; the payload lists the properties of the
    object literal in order. *)
Record request : Type := {
  url : jsstring;
  payload : list (jsstring * jsstring);
}.

(** [res.data] *)
Record response : Type := {
  token : jsstring;
  user : App.account;
}.

Inductive effect : Type :=
| PreventDefault                                  (* e.preventDefault() *)
| Login (newToken : jsstring) (userData : App.account)  (* login(...) *)
| ToastSuccess (msg : jsstring)
| ToastError (msg : jsstring)
| Navigate (to : jsstring).                       (* navigate(to) *)

Abbreviation handler := (proc state request response error effect).

Definition setLoading (b : bool) (st : state) : state :=
  {| isRegister := isRegister st; email := email st; password := password st;
     username := username st; loading := b |}.

(** [err.response?.data?.detail || "Authentication failed"] *)
Definition failureText (err : error) : jsstring :=
  match detail err with
  | Some (c :: s) => c :: s
  | _ => js "Authentication failed"
  end.

(** The part of [handleSubmit] after [await axios.post(...)]. *)
Definition handleSubmit_settle (st : state)
    (o : settlement error response) : handler :=
  (match o with
   | Fulfilled res =>
       emit (Login (token res) (user res));;
       emit (ToastSuccess (if isRegister st then js "Account created"
                           else js "Access granted"));;
       emit (Navigate (js "/"))
   | Rejected err => emit (ToastError (failureText err))
   end;;
   update (setLoading false))%proc.

(** [handleSubmit], closed over the cells of the render whose form was
    submitted; [API] is the base address of the back end. *)
Definition handleSubmit (API : jsstring) (st : state) : handler :=
  (emit PreventDefault;;
   update (setLoading true);;
   let endpoint := if isRegister st then js "/auth/register"
                   else js "/auth/login" in
   let payload :=
     if isRegister st
     then [(js "username", username st); (js "email", email st);
           (js "password", password st)]
     else [(js "email", email st); (js "password", password st)] in
   Await {| url := API ++ endpoint; payload := payload |}
         (handleSubmit_settle st))%proc.

(** The effects of a call that reach outside the page. *)
Definition logsIn (e : effect) : bool :=
  match e with Login _ _ => true | _ => false end.
Definition navigates (e : effect) : bool :=
  match e with Navigate _ => true | _ => false end.

End LoginPage.

(** ** Statements about the added parts *)

(** The effects recorded in a trace. *)
Fixpoint effectsOf {Req Resp Err Eff} (t : list (event Req Resp Err Eff))
    : list Eff :=
  match t with
  | [] => []
  | Effect e :: t' => e :: effectsOf t'
  | _ :: t' => effectsOf t'
  end.

(** What an admin page without the admin role can be waiting for: at
    most the refresh made on mount, and [rebuilding] is never set. *)
Definition fetchOnly (rt : adminRuntime) : Prop :=
  (inflight rt = [] \/
   inflight rt = [WaitingAll [AdminPage.GetAuditLogs; AdminPage.GetUsers]
                             AdminPage.fetchData_settle]) /\
  AdminPage.rebuilding (current rt) = false.

(** ** The admin page across visits

    The route [/admin] mounts the page and a navigation elsewhere
    unmounts it. Every mount is a fresh instance of the component: its
    cells start from their initial values and the effect hook calls
    [fetchData]. The calls of an instance that was left are not aborted:
    they keep waiting for their requests and run on when these settle,
    on cells that are no longer rendered and that no user event reaches. *)
Record visits : Type := {
  shown : option adminRuntime;
  detached : list adminRuntime;
}.

Inductive visit (role : option jsstring) : visits -> visits -> Prop :=
| visit_enter l :
    visit role {| shown := None; detached := l |}
               {| shown := Some AdminPage.mounted; detached := l |}
| visit_leave rt l :
    visit role {| shown := Some rt; detached := l |}
               {| shown := None; detached := rt :: l |}
| visit_page rt rt' l :
    step (AdminPage.controls role) rt rt' ->
    visit role {| shown := Some rt; detached := l |}
               {| shown := Some rt'; detached := l |}
| visit_detached s i rt rt' :
    detached s !! i = Some rt ->
    step (fun (_ : AdminPage.state) (_ : AdminPage.uievent) => None) rt rt' ->
    visit role s {| shown := shown s; detached := <[i := rt']> (detached s) |}.

(** The states a user reaches from a session in which the admin page
    has not been opened yet. *)
Inductive visited (role : option jsstring) : visits -> Prop :=
| visited_start : visited role {| shown := None; detached := [] |}
| visited_step s s' : visited role s -> visit role s s' -> visited role s'.

(** The rebuild requests issued from the admin page and not yet
    settled, whichever instance of the page issued them. *)
Definition rebuildsPending (s : visits) : nat :=
  (match shown s with
   | Some rt => AdminPage.rebuildsInFlight rt
   | None => 0
   end + sum_list (map AdminPage.rebuildsInFlight (detached s)))%nat.

(** An administrator clicks the rebuild button, leaves the page, comes
    back before the rebuild has settled and clicks the button again. *)
Definition rebuiltAgain : visits :=
  {| shown := Some rebuildClicked; detached := [rebuildClicked] |}.

(** * Properties *)

(** *** Facts about the string operations *)

Lemma trimStart_split (s : jsstring) :
  exists l, s = l ++ trimStart s /\ forallb isWhiteSpace l = true.
Proof.
  induction s as [|c s [l [Hs Hl]]]; simpl.
  - exists []. split; reflexivity.
  - destruct (isWhiteSpace c) eqn:Hc.
    + exists (c :: l). split.
      * simpl. f_equal. exact Hs.
      * simpl. rewrite Hc. exact Hl.
    + exists []. split; reflexivity.
Qed.

Lemma trimStart_head (s : jsstring) (c : N) (r : jsstring) :
  trimStart s = c :: r -> isWhiteSpace c = false.
Proof.
  induction s as [|a s IH]; simpl; [discriminate|].
  destruct (isWhiteSpace a) eqn:Ha; [exact IH|].
  intros E. injection E as -> _. exact Ha.
Qed.

Lemma trimEnd_split (s : jsstring) :
  exists r, s = trimEnd s ++ r /\ forallb isWhiteSpace r = true.
Proof.
  unfold trimEnd.
  destruct (trimStart_split (rev s)) as [l [Hs Hl]].
  exists (rev l). split.
  - rewrite <- rev_app_distr, <- Hs, rev_involutive. reflexivity.
  - rewrite forallb_forall in *. intros x Hx. apply Hl.
    apply in_rev. exact Hx.
Qed.

Lemma trimEnd_last (s : jsstring) (c : N) (r : jsstring) :
  trimEnd s = r ++ [c] -> isWhiteSpace c = false.
Proof.
  unfold trimEnd. intros E.
  apply (f_equal (@rev N)) in E.
  rewrite rev_involutive, rev_app_distr in E. simpl in E.
  exact (trimStart_head _ _ _ E).
Qed.

(** Trimming on the right does not uncover white space on the left. *)
Lemma trimEnd_head (s : jsstring) (c : N) (r : jsstring) :
  (forall c' r', s = c' :: r' -> isWhiteSpace c' = false) ->
  trimEnd s = c :: r -> isWhiteSpace c = false.
Proof.
  intros Hs E.
  destruct (trimEnd_split s) as [w [Hw _]].
  rewrite E in Hw. simpl in Hw. exact (Hs _ _ Hw).
Qed.

Lemma startsWith_spec (s t : jsstring) :
  startsWith s t = true <-> exists post, s = t ++ post.
Proof.
  revert s. induction t as [|b t IH]; intros s; simpl.
  - split; [intros _; exists s; reflexivity | reflexivity].
  - destruct s as [|a s].
    + split; [discriminate | intros [post E]; discriminate].
    + rewrite andb_true_iff, N.eqb_eq, IH. split.
      * intros [-> [post ->]]. exists post. reflexivity.
      * intros [post E]. injection E as -> ->. split; [reflexivity|].
        exists post. reflexivity.
Qed.

Lemma includes_spec (s t : jsstring) :
  includes s t = true <-> exists pre post, s = pre ++ t ++ post.
Proof.
  induction s as [|a s IH].
  - simpl. rewrite orb_false_r, startsWith_spec. split.
    + intros [post E]. exists [], post. exact E.
    + intros [pre [post E]]. destruct pre; [|discriminate].
      exists post. exact E.
  - cbn [includes]. rewrite orb_true_iff, startsWith_spec, IH. split.
    + intros [[post E] | [pre [post E]]].
      * exists [], post. exact E.
      * exists (a :: pre), post. simpl. f_equal. exact E.
    + intros [pre [post E]]. destruct pre as [|p pre].
      * left. exists post. exact E.
      * right. injection E as _ E. exists pre, post. exact E.
Qed.

Lemma includes_empty (s : jsstring) : includes s [] = true.
Proof. destruct s; reflexivity. Qed.

Lemma split_nonempty (sep : N) (s : jsstring) : split sep s <> [].
Proof.
  induction s as [|c s IH]; simpl; [discriminate|].
  destruct (c =? sep); [discriminate|].
  destruct (split sep s); discriminate.
Qed.

Lemma pop_split (sep : N) (s : jsstring) : exists ext, pop (split sep s) = Some ext.
Proof.
  unfold pop. destruct (last (split sep s)) as [e|] eqn:E.
  - exists e. reflexivity.
  - apply last_None in E. destruct (split_nonempty _ _ E).
Qed.

(** *** Evaluation of the number formats *)

Example toFixed1_1536_over_1024 :
  @toFixed1 exactDigits (div (ofN 1536) (ofN 1024)) = js "1.5".
Proof. vm_compute. reflexivity. Qed.

Example toFixed1_rounds_half_up :
  @toFixed1 exactDigits (div (ofN 5) (ofN 4)) = js "1.3".
Proof. vm_compute. reflexivity. Qed.

Example numberToString_three_quarters :
  @numberToString exactDigits (div (ofN 3) (ofN 4)) = js "0.75".
Proof. vm_compute. reflexivity. Qed.


(** ** QueryPage *)

Section QueryPageFacts.
Import QueryPage.

Lemma includes_middle (a t b : jsstring) : includes (a ++ t ++ b) t = true.
Proof. apply includes_spec. exists a, b. reflexivity. Qed.

Lemma trim_split (s : jsstring) :
  exists l r, s = l ++ trim s ++ r /\
    forallb isWhiteSpace l = true /\ forallb isWhiteSpace r = true.
Proof.
  destruct (trimStart_split s) as [l [Hl Wl]].
  destruct (trimEnd_split (trimStart s)) as [r [Hr Wr]].
  exists l, r. unfold trim. rewrite <- Hr. auto.
Qed.

Lemma trim_head (s : jsstring) (c : N) (r : jsstring) :
  trim s = c :: r -> isWhiteSpace c = false.
Proof.
  unfold trim. apply trimEnd_head. intros c' r'. apply trimStart_head.
Qed.

Lemma trim_last (s : jsstring) (c : N) (r : jsstring) :
  trim s = r ++ [c] -> isWhiteSpace c = false.
Proof. unfold trim. apply trimEnd_last. Qed.

(** The guard of [sendQuery] in terms of the trimmed input. *)
Lemma guard_iff (st : state) :
  negb (ToBoolean (VString (trim (input st)))) || loading st = true <->
  trim (input st) = [] \/ loading st = true.
Proof.
  destruct (trim (input st)) as [|c s], (loading st); simpl; split; auto.
  intros [E|E]; discriminate.
Qed.

(** After the response has settled the call is over: no further request. *)
Lemma sendQuery_settle_finished (o : settlement error response) (st : state) :
  (exec (sendQuery_settle o) st).2 = None.
Proof. destruct o; reflexivity. Qed.

End QueryPageFacts.

(** C8: when the input is empty after trimming, or a previous query is
    still loading, the submit handler issues no request and leaves the
    component state (message list, input field, loading flag) as it was;
    its only effect is [preventDefault] on the submit event. *)
Theorem sendQuery_guard (st : QueryPage.state) :
  trim (QueryPage.input st) = [] \/ QueryPage.loading st = true ->
  exec (QueryPage.sendQuery st) st = (st, [QueryPage.PreventDefault], None).
Proof.
  intros G. apply guard_iff in G.
  unfold QueryPage.sendQuery. cbn [seq emit exec].
  rewrite G. reflexivity.
Qed.

Lemma sendQuery_guard_witness :
  let st := {| QueryPage.messages := []; QueryPage.input := js "  ";
               QueryPage.loading := false |} in
  trim (QueryPage.input st) = [] /\
  exec (QueryPage.sendQuery st) st = (st, [QueryPage.PreventDefault], None).
Proof.
  split; [reflexivity|]. apply sendQuery_guard. left. reflexivity.
Defined.

(** C2: every request issued by the query page is the POST to [/query]
    made by [sendQuery]; it carries the input trimmed of surrounding
    white space (the input is the query between two runs of white space,
    and the query neither starts nor ends with white space) and
    [top_k = 5]. The rest of the handler issues no request. *)
Theorem sendQuery_request (st st' : QueryPage.state)
    (es : list QueryPage.effect)
    (t : task QueryPage.state QueryPage.request QueryPage.response error
              QueryPage.effect) :
  exec (QueryPage.sendQuery st) st = (st', es, Some t) ->
  exists r,
    t = Waiting r QueryPage.sendQuery_settle /\
    QueryPage.path r = js "/query" /\
    QueryPage.top_k r = 5 /\
    QueryPage.query r = trim (QueryPage.input st) /\
    (exists l w, QueryPage.input st = l ++ QueryPage.query r ++ w /\
       forallb isWhiteSpace l = true /\ forallb isWhiteSpace w = true) /\
    (forall c s, QueryPage.query r = c :: s -> isWhiteSpace c = false) /\
    (forall c s, QueryPage.query r = s ++ [c] -> isWhiteSpace c = false) /\
    (forall o st2, (exec (QueryPage.sendQuery_settle o) st2).2 = None).
Proof.
  unfold QueryPage.sendQuery. cbn [seq emit exec].
  destruct (negb (ToBoolean (VString (trim (QueryPage.input st)))) ||
            QueryPage.loading st) eqn:G; cbn; [discriminate|].
  intros E. injection E as _ _ <-.
  eexists. split; [reflexivity|]. cbn.
  repeat split.
  - apply trim_split.
  - apply trim_head.
  - apply trim_last.
  - apply sendQuery_settle_finished.
Qed.

Lemma sendQuery_request_witness :
  let st := {| QueryPage.messages := []; QueryPage.input := js " what is RAG? ";
               QueryPage.loading := false |} in
  exists r,
    Waiting {| QueryPage.path := js "/query";
               QueryPage.query := js "what is RAG?";
               QueryPage.top_k := 5 |} QueryPage.sendQuery_settle =
      Waiting r QueryPage.sendQuery_settle /\
    QueryPage.path r = js "/query" /\
    QueryPage.top_k r = 5 /\
    QueryPage.query r = trim (QueryPage.input st) /\
    (exists l w, QueryPage.input st = l ++ QueryPage.query r ++ w /\
       forallb isWhiteSpace l = true /\ forallb isWhiteSpace w = true) /\
    (forall c s, QueryPage.query r = c :: s -> isWhiteSpace c = false) /\
    (forall c s, QueryPage.query r = s ++ [c] -> isWhiteSpace c = false) /\
    (forall o st2, (exec (QueryPage.sendQuery_settle o) st2).2 = None).
Proof.
  intros st.
  apply (sendQuery_request st
           {| QueryPage.messages := [QueryPage.userMessage (js "what is RAG?")];
              QueryPage.input := [];
              QueryPage.loading := true |}
           [QueryPage.PreventDefault]).
  vm_compute. reflexivity.
Defined.

(** C1: when the request of a query fails, the handler appends to the
    transcript the assistant message with the fixed text and without a
    [citations] property, whatever the rejection reason is; the reason
    only reaches a toast with a fixed text. The bubble of that message
    shows the fixed text and no citation cards. This holds on the state
    the rejection finds, and so for the whole call run alone from a
    state that passes the guard. *)
Theorem sendQuery_failure (st : QueryPage.state) (e : error)
    (server : nat -> QueryPage.request -> settlement error QueryPage.response) :
  trim (QueryPage.input st) <> [] ->
  QueryPage.loading st = false ->
  server 0%nat {| QueryPage.path := js "/query";
                  QueryPage.query := trim (QueryPage.input st);
                  QueryPage.top_k := 5 |} = Rejected e ->
  (run server 0 (QueryPage.sendQuery st) st).1.1 =
    {| QueryPage.messages :=
         QueryPage.messages st ++
         [QueryPage.userMessage (trim (QueryPage.input st));
          {| QueryPage.role := js "assistant";
             QueryPage.content :=
               VString (js "System error: Unable to process query. Please try again.");
             QueryPage.citations := None |}];
       QueryPage.input := [];
       QueryPage.loading := false |} /\
  (forall st2,
     exec (QueryPage.sendQuery_settle (Rejected e)) st2 =
       ({| QueryPage.messages := QueryPage.messages st2 ++ [QueryPage.errorMessage];
           QueryPage.input := QueryPage.input st2;
           QueryPage.loading := false |},
        [QueryPage.ToastError (js "Query failed"); QueryPage.FocusInput],
        None)) /\
  (forall (D : NumberDigits) isOpen,
     QueryPage.MessageBubble isOpen QueryPage.errorMessage =
       {| QueryPage.isUser := false;
          QueryPage.header := Some (js "OBSIDIAN AI");
          QueryPage.body :=
            js "System error: Unable to process query. Please try again.";
          QueryPage.references := None |}).
Proof.
  intros Hin Hload Hsrv. split; [|split].
  - unfold QueryPage.sendQuery. cbn [seq emit run].
    assert (G : negb (ToBoolean (VString (trim (QueryPage.input st)))) ||
                QueryPage.loading st = false).
    { rewrite Hload. destruct (trim (QueryPage.input st)); [congruence|reflexivity]. }
    rewrite G. cbn [seq update run]. rewrite Hsrv. cbn.
    unfold QueryPage.setMessages, QueryPage.setInput, QueryPage.setLoading. cbn.
    rewrite <- app_assoc. reflexivity.
  - intros st2. reflexivity.
  - intros D isOpen. reflexivity.
Qed.

Lemma sendQuery_failure_witness :
  let st := {| QueryPage.messages := []; QueryPage.input := js " hello ";
               QueryPage.loading := false |} in
  let e := {| status := Some 500; detail := None |} in
  (run (fun _ _ => Rejected e) 0 (QueryPage.sendQuery st) st).1.1 =
    {| QueryPage.messages :=
         [QueryPage.userMessage (js "hello"); QueryPage.errorMessage];
       QueryPage.input := [];
       QueryPage.loading := false |}.
Proof.
  intros st e.
  apply (sendQuery_failure st e (fun _ _ => Rejected e)).
  - vm_compute. discriminate.
  - reflexivity.
  - reflexivity.
Defined.

Example sample_card_closed :
  @QueryPage.CitationCard exactDigits sampleCitation false =
    {| QueryPage.testid := js "citation-1";
       QueryPage.title := js "[1] a.pdf";
       QueryPage.meta := js "Page 2 // Score: 0.75";
       QueryPage.expanded := false;
       QueryPage.preview := None |}.
Proof. vm_compute. reflexivity. Qed.

Example sample_card_open :
  QueryPage.preview (@QueryPage.CitationCard exactDigits sampleCitation true) =
    Some (js "alpha beta").
Proof. reflexivity. Qed.

(** A citation that comes without a score gets no score text. *)
Example card_without_score :
  QueryPage.meta
    (@QueryPage.CitationCard exactDigits
       {| QueryPage.index := VNumber (ofN 1);
          QueryPage.filename := VString (js "a.pdf");
          QueryPage.file_type := VString (js "pdf");
          QueryPage.page_number := VNumber (ofN 2);
          QueryPage.timestamp := VUndefined;
          QueryPage.score := VUndefined;
          QueryPage.text_preview := VString (js "alpha beta") |} false) =
  js "Page 2".
Proof. vm_compute. reflexivity. Qed.

(** A successful query run alone: the question, then the answer. *)
Example sendQuery_sample :
  (run (fun _ _ => Fulfilled sampleResponse) 0
       (QueryPage.sendQuery
          {| QueryPage.messages := []; QueryPage.input := js " why? ";
             QueryPage.loading := false |})
       {| QueryPage.messages := []; QueryPage.input := js " why? ";
          QueryPage.loading := false |}).1.1 =
  {| QueryPage.messages :=
       [QueryPage.userMessage (js "why?"); QueryPage.answerMessage sampleResponse];
     QueryPage.input := [];
     QueryPage.loading := false |}.
Proof. vm_compute. reflexivity. Qed.

(** C3, as stated, fails: the card mounted for a citation is closed, and
    a closed card does not render the preview of its citation. *)
Lemma answer_preview_hidden : ~ @answerFullyDisplayed exactDigits sampleResponse.
Proof.
  unfold answerFullyDisplayed. intros [_ F].
  cbn in F. inversion F as [|k c ks cs [_ [_ [_ [_ P]]]] _]; subst.
  vm_compute in P. discriminate.
Qed.

(** C3, amended: on a successful response the handler appends the
    assistant message whose content is the answer and whose citations are
    those of the response. Its bubble shows the answer and, when the list
    of citations is not empty, one card per citation in the order of the
    list. Each card shows the index and file name of its citation as
    received; it shows the page number, the timestamp and the score when
    the field is truthy; and it shows the preview exactly while the card
    is open. *)
Theorem answer_rendered (D : NumberDigits) (res : QueryPage.response)
    (st : QueryPage.state) (isOpen : QueryPage.citation -> bool) :
  let m := {| QueryPage.role := js "assistant";
              QueryPage.content := QueryPage.answer res;
              QueryPage.citations := QueryPage.data_citations res |} in
  let b := QueryPage.MessageBubble isOpen m in
  exec (QueryPage.sendQuery_settle (Fulfilled res)) st =
    ({| QueryPage.messages := QueryPage.messages st ++ [m];
        QueryPage.input := QueryPage.input st;
        QueryPage.loading := false |},
     [QueryPage.FocusInput], None) /\
  QueryPage.body b = jsxText (QueryPage.answer res) /\
  QueryPage.references b =
    match QueryPage.data_citations res with
    | Some (c :: cs) =>
        Some (map (fun c => QueryPage.CitationCard c (isOpen c)) (c :: cs))
    | _ => None
    end /\
  forall c,
    let k := QueryPage.CitationCard c (isOpen c) in
    QueryPage.title k =
      js "[" ++ jsxText (QueryPage.index c) ++ js "] " ++
      jsxText (QueryPage.filename c) /\
    (ToBoolean (QueryPage.page_number c) = true ->
     includes (QueryPage.meta k)
       (js "Page " ++ ToString (QueryPage.page_number c)) = true) /\
    (ToBoolean (QueryPage.timestamp c) = true ->
     includes (QueryPage.meta k) (ToString (QueryPage.timestamp c)) = true) /\
    (ToBoolean (QueryPage.score c) = true ->
     includes (QueryPage.meta k)
       (js "Score: " ++ ToString (QueryPage.score c)) = true) /\
    QueryPage.preview k =
      if isOpen c then Some (jsxText (QueryPage.text_preview c)) else None.
Proof.
  intros m b. split; [reflexivity|]. split; [reflexivity|]. split.
  - subst b m. unfold QueryPage.MessageBubble. cbn.
    destruct (QueryPage.data_citations res) as [[|c cs]|]; reflexivity.
  - intros c k. subst k. unfold QueryPage.CitationCard. cbn [QueryPage.title
      QueryPage.meta QueryPage.preview].
    split; [reflexivity|]. split; [|split; [|split; [|reflexivity]]].
    + intros ->. apply (includes_middle []).
    + intros ->.
      set (P := if ToBoolean (QueryPage.page_number c) then _ else _).
      set (S := if ToBoolean (QueryPage.score c) then _ else _).
      apply includes_spec. exists (P ++ js " "), S.
      rewrite <- !app_assoc. reflexivity.
    + intros ->.
      set (P := if ToBoolean (QueryPage.page_number c) then _ else _).
      set (T := if ToBoolean (QueryPage.timestamp c) then _ else _).
      apply includes_spec. exists (P ++ T ++ js " // "), [].
      rewrite app_nil_r, <- !app_assoc. reflexivity.
Qed.

Lemma answer_rendered_witness :
  let k := @QueryPage.CitationCard exactDigits sampleCitation false in
  includes (QueryPage.meta k) (js "Page 2") = true /\
  includes (QueryPage.meta k) (js "Score: 0.75") = true /\
  QueryPage.preview k = None.
Proof.
  intros k.
  destruct (answer_rendered exactDigits sampleResponse
              {| QueryPage.messages := []; QueryPage.input := [];
                 QueryPage.loading := true |} QueryPage.closed)
    as [_ [_ [_ F]]].
  destruct (F sampleCitation) as [_ [P [_ [S V]]]].
  split; [exact (P eq_refl)|]. split; [exact (S eq_refl)|exact V].
Defined.

(** ** DocumentsPage *)

Example filtered_by_name :
  @DocumentsPage.filtered basicLatin (sampleDocState "REPORT") =
    [sampleDocument "d1" "Report.PDF" "pdf"].
Proof. vm_compute. reflexivity. Qed.

Example filtered_by_type :
  @DocumentsPage.filtered basicLatin (sampleDocState "Doc") =
    [sampleDocument "d2" "notes.docx" "docx"].
Proof. vm_compute. reflexivity. Qed.

Lemma matches_spec (L : CaseMapping) (search : jsstring)
    (d : DocumentsPage.document) :
  DocumentsPage.matches search d = true <->
  containsIgnoringCase (DocumentsPage.filename d) search \/
  containsIgnoringCase (DocumentsPage.file_type d) search.
Proof.
  unfold DocumentsPage.matches, containsIgnoringCase.
  rewrite orb_true_iff, !includes_spec. reflexivity.
Qed.

Lemma filter_all {A} (P : A -> Prop) `{forall x, Decision (P x)} (l : list A) :
  (forall x, x ∈ l -> P x) -> filter P l = l.
Proof.
  induction l as [|a l IH]; intros Hl; [reflexivity|].
  rewrite filter_cons_True by (apply Hl; left).
  f_equal. apply IH. intros x Hx. apply Hl. right. exact Hx.
Qed.

Lemma filter_swap {A} (P Q : A -> Prop) `{forall x, Decision (P x)}
    `{forall x, Decision (Q x)} (l : list A) :
  filter P (filter Q l) = filter Q (filter P l).
Proof.
  induction l as [|a l IH]; [reflexivity|].
  destruct (decide (P a)) as [p|p], (decide (Q a)) as [q|q].
  - rewrite (filter_cons_True Q), (filter_cons_True P) by assumption.
    rewrite (filter_cons_True P), (filter_cons_True Q) by assumption.
    f_equal. exact IH.
  - rewrite (filter_cons_False Q), (filter_cons_True P) by assumption.
    rewrite (filter_cons_False Q) by assumption. exact IH.
  - rewrite (filter_cons_True Q), (filter_cons_False P) by assumption.
    rewrite (filter_cons_False P) by assumption. exact IH.
  - rewrite (filter_cons_False Q), (filter_cons_False P) by assumption. exact IH.
Qed.

(** C10: a document is kept in the filtered list iff its file name or
    its file type contains the search string when case is ignored; the
    filtered list is the document list restricted to those documents, in
    the same order. For a case mapping that sends the empty string to
    itself, the empty search string keeps the whole list. *)
Theorem filtered_spec (L : CaseMapping) (st : DocumentsPage.state) :
  (forall d, DocumentsPage.matches (DocumentsPage.search st) d = true <->
     containsIgnoringCase (DocumentsPage.filename d) (DocumentsPage.search st) \/
     containsIgnoringCase (DocumentsPage.file_type d) (DocumentsPage.search st)) /\
  (forall d, d ∈ DocumentsPage.filtered st <->
     d ∈ DocumentsPage.docs st /\
     (containsIgnoringCase (DocumentsPage.filename d) (DocumentsPage.search st) \/
      containsIgnoringCase (DocumentsPage.file_type d) (DocumentsPage.search st))) /\
  sublist (DocumentsPage.filtered st) (DocumentsPage.docs st) /\
  (toLowerCase [] = [] -> DocumentsPage.search st = [] ->
     DocumentsPage.filtered st = DocumentsPage.docs st).
Proof.
  split; [|split; [|split]].
  - intros d. apply matches_spec.
  - intros d. unfold DocumentsPage.filtered.
    rewrite list_elem_of_filter, Is_true_true, matches_spec. tauto.
  - apply sublist_filter.
  - intros Hnil Hs. unfold DocumentsPage.filtered. apply filter_all.
    intros d _. apply Is_true_true. unfold DocumentsPage.matches.
    rewrite Hs, Hnil, includes_empty. reflexivity.
Qed.

Lemma filtered_spec_witness :
  @toLowerCase basicLatin [] = [] /\
  @DocumentsPage.filtered basicLatin (sampleDocState "") = sampleDocs.
Proof.
  split; [reflexivity|].
  apply (filtered_spec basicLatin (sampleDocState "")); reflexivity.
Defined.

(** C4: when the delete request of document [doc] succeeds, the document
    list becomes the list of that moment without the entries whose id is
    that of [doc]; the entries with another id stay, unchanged and in
    their order, and so do the filtered list and the displayed rows. When
    the request fails, and while it is pending, the list is unchanged. *)
Theorem deleteDoc_frame (L : CaseMapping) (doc : DocumentsPage.document)
    (st : DocumentsPage.state) (res : DocumentsPage.response) (e : error) :
  let keep := fun d => DocumentsPage.id d <> DocumentsPage.id doc in
  let pend := (exec (DocumentsPage.deleteDoc doc) st).1.1 in
  let ok := (exec (DocumentsPage.deleteDoc_settle doc (Fulfilled res)) st).1.1 in
  let ko := (exec (DocumentsPage.deleteDoc_settle doc (Rejected e)) st).1.1 in
  (exec (DocumentsPage.deleteDoc doc) st).2 =
    Some (Waiting (DocumentsPage.DeleteDocument
                     (js "/documents/" ++ DocumentsPage.id doc))
                  (DocumentsPage.deleteDoc_settle doc)) /\
  DocumentsPage.docs ok = filter keep (DocumentsPage.docs st) /\
  DocumentsPage.filtered ok = filter keep (DocumentsPage.filtered st) /\
  DocumentsPage.rows ok = filter keep (DocumentsPage.rows st) /\
  (forall d, d ∈ DocumentsPage.rows ok <->
     d ∈ DocumentsPage.rows st /\ DocumentsPage.id d <> DocumentsPage.id doc) /\
  DocumentsPage.docs ko = DocumentsPage.docs st /\
  DocumentsPage.rows ko = DocumentsPage.rows st /\
  DocumentsPage.docs pend = DocumentsPage.docs st /\
  DocumentsPage.rows pend = DocumentsPage.rows st.
Proof.
  intros keep pend ok ko.
  assert (F : DocumentsPage.filtered ok = filter keep (DocumentsPage.filtered st)).
  { unfold DocumentsPage.filtered. cbn. apply filter_swap. }
  assert (R : DocumentsPage.rows ok = filter keep (DocumentsPage.rows st)).
  { unfold DocumentsPage.rows. rewrite F. cbn.
    destruct (DocumentsPage.loading st); reflexivity. }
  split; [reflexivity|]. split; [reflexivity|]. split; [exact F|].
  split; [exact R|]. split.
  { intros d. rewrite R, list_elem_of_filter. subst keep. cbv beta. tauto. }
  repeat split; reflexivity.
Qed.

Example deleteDoc_sample :
  let doc := sampleDocument "d2" "notes.docx" "docx" in
  DocumentsPage.docs
    (exec (DocumentsPage.deleteDoc_settle doc (Fulfilled {| DocumentsPage.data := [] |}))
          (sampleDocState "")).1.1 =
  [sampleDocument "d1" "Report.PDF" "pdf"; sampleDocument "d3" "talk.mp3" "audio"].
Proof. vm_compute. reflexivity. Qed.

(** ** The two size formats *)

Example formatSize_samples :
  @DocumentsPage.formatSize exactDigits (ofN 0) = js "0 B" /\
  @DocumentsPage.formatSize exactDigits (ofN 512) = js "512 B" /\
  @DocumentsPage.formatSize exactDigits (ofN 1536) = js "1.5 KB" /\
  @DocumentsPage.formatSize exactDigits (ofN 5242880) = js "5.0 MB" /\
  @UploadPage.formatSize exactDigits (ofN 0) = js "0 B" /\
  @UploadPage.formatSize exactDigits (ofN 1048575) = js "1024.0 KB".
Proof. vm_compute. repeat split. Qed.

(** Outside the non-negative finite Numbers the two differ. *)
Example formatSize_nan :
  @DocumentsPage.formatSize exactDigits S754_nan = js "0 B" /\
  @UploadPage.formatSize exactDigits S754_nan = js "NaN MB".
Proof. vm_compute. split; reflexivity. Qed.

(** C9: on every Number that is finite and not negative the [formatSize]
    of the upload page and the [formatSize] of the documents page return
    the same string. *)
Theorem formatSize_agree (D : NumberDigits) (bytes : number) :
  nonNegativeFinite bytes = true ->
  UploadPage.formatSize bytes = DocumentsPage.formatSize bytes.
Proof.
  destruct bytes as [s| | |[|] m e]; try discriminate; intros _.
  - destruct s; reflexivity.
  - reflexivity.
Qed.

Lemma formatSize_agree_witness :
  nonNegativeFinite (ofN 1536) = true /\
  @UploadPage.formatSize exactDigits (ofN 1536) =
  @DocumentsPage.formatSize exactDigits (ofN 1536).
Proof.
  split; [reflexivity|]. apply formatSize_agree. reflexivity.
Defined.

(** ** UploadPage *)

Example getFileType_samples :
  @UploadPage.getFileType basicLatin (js "Report.PDF") = Some (js "pdf") /\
  @UploadPage.getFileType basicLatin (js "old.Doc") = Some (js "docx") /\
  @UploadPage.getFileType basicLatin (js "scan.final.JPeG") = Some (js "image") /\
  @UploadPage.getFileType basicLatin (js "talk.flac") = Some (js "audio") /\
  @UploadPage.getFileType basicLatin (js "README") = Some (js "unknown") /\
  @UploadPage.getFileType basicLatin (js "pdf") = Some (js "pdf") /\
  @UploadPage.getFileType basicLatin (js "archive.") = Some (js "unknown").
Proof. vm_compute. repeat split. Qed.

(** C6, as stated, fails: a file whose extension is not in the table is
    classified as [unknown], which is not a modality. *)
Lemma getFileType_unknown : ~ @classifiedAsModality basicLatin (js "notes.txt").
Proof.
  intros [ty [E M]]. vm_compute in E. injection E as <-.
  unfold modalities in M. rewrite !elem_of_cons, elem_of_nil in M.
  destruct M as [M|[M|[M|[M|[]]]]]; vm_compute in M; discriminate.
Qed.

Lemma known_split :
  knownExtensions =
    [js "pdf"] ++ [js "docx"; js "doc"] ++
    [js "png"; js "jpg"; js "jpeg"; js "gif"; js "bmp"; js "webp"] ++
    [js "mp3"; js "wav"; js "ogg"; js "m4a"; js "flac"].
Proof. reflexivity. Qed.

Lemma modality_pdf : js "pdf" ∈ modalities.
Proof. unfold modalities. repeat constructor. Qed.
Lemma modality_docx : js "docx" ∈ modalities.
Proof. unfold modalities. repeat constructor. Qed.
Lemma modality_image : js "image" ∈ modalities.
Proof. unfold modalities. repeat constructor. Qed.
Lemma modality_audio : js "audio" ∈ modalities.
Proof. unfold modalities. repeat constructor. Qed.

Lemma getFileType_cases (L : CaseMapping) (name ext : jsstring) :
  pop (split 46 name) = Some ext ->
  ((toLowerCase ext ∈ knownExtensions) /\
   exists ty, UploadPage.getFileType name = Some ty /\ ty ∈ modalities) \/
  (~ (toLowerCase ext ∈ knownExtensions) /\
   UploadPage.getFileType name = Some (js "unknown")).
Proof.
  intros P. unfold UploadPage.getFileType. rewrite P, known_split.
  rewrite !elem_of_app.
  repeat case_bool_decide.
  - left. split; [tauto|]. eexists. split; [reflexivity|apply modality_pdf].
  - left. split; [tauto|]. eexists. split; [reflexivity|apply modality_docx].
  - left. split; [tauto|]. eexists. split; [reflexivity|apply modality_image].
  - left. split; [tauto|]. eexists. split; [reflexivity|apply modality_audio].
  - right. split; [tauto|reflexivity].
Qed.

Lemma unknown_not_modality : ~ (js "unknown" ∈ modalities).
Proof.
  unfold modalities. rewrite !elem_of_cons, elem_of_nil.
  intros [M|[M|[M|[M|[]]]]]; vm_compute in M; discriminate.
Qed.

(** C6, amended: [getFileType] classifies every file name (it never
    throws) with one of [pdf], [docx], [image], [audio] and [unknown].
    The class is a modality exactly when the lower-cased last
    dot-separated segment of the name is one of the fourteen extensions
    of the table, and [unknown] otherwise. It depends on the name only
    through that lower-cased segment, hence not on the case of the
    extension. Every entry [handleFiles] adds to the queue carries the
    class of its file name. *)
Theorem getFileType_classifies (L : CaseMapping) (name : jsstring) :
  exists ext ty,
    pop (split 46 name) = Some ext /\
    UploadPage.getFileType name = Some ty /\
    ty ∈ modalities ++ [js "unknown"] /\
    (ty ∈ modalities <-> toLowerCase ext ∈ knownExtensions) /\
    (ty = js "unknown" <-> ~ (toLowerCase ext ∈ knownExtensions)) /\
    (forall name' ext',
       pop (split 46 name') = Some ext' ->
       toLowerCase ext' = toLowerCase ext ->
       UploadPage.getFileType name' = Some ty) /\
    (forall f rid item,
       UploadPage.file_name f = name ->
       UploadPage.queueItem f rid = Some item ->
       UploadPage.type item = ty).
Proof.
  destruct (pop_split 46 name) as [ext P]. exists ext.
  destruct (getFileType_cases L name ext P) as [[K [ty [E M]]]|[K E]].
  - exists ty. repeat split; try assumption; try tauto.
    + apply elem_of_app. left. exact M.
    + intros ->. destruct (unknown_not_modality M).
    + intros name' ext' P' El. rewrite <- E.
      unfold UploadPage.getFileType. rewrite P, P', El. reflexivity.
    + intros f rid item <-. unfold UploadPage.queueItem. rewrite E. cbn.
      intros I. injection I as <-. reflexivity.
  - exists (js "unknown"). repeat split; try assumption; try tauto.
    + apply elem_of_app. right. left.
    + intros M. destruct (unknown_not_modality M).
    + intros name' ext' P' El. rewrite <- E.
      unfold UploadPage.getFileType. rewrite P, P', El. reflexivity.
    + intros f rid item <-. unfold UploadPage.queueItem. rewrite E. cbn.
      intros I. injection I as <-. reflexivity.
Qed.

Lemma getFileType_classifies_witness :
  exists ty,
    @UploadPage.getFileType basicLatin (js "photo.JPG") = Some ty /\
    @UploadPage.getFileType basicLatin (js "PHOTO.jpg") = Some ty.
Proof.
  destruct (getFileType_classifies basicLatin (js "photo.JPG"))
    as [ext [ty [P [E [_ [_ [_ [I _]]]]]]]].
  exists ty. split; [exact E|].
  apply (I (js "PHOTO.jpg") (js "jpg")); [reflexivity|].
  vm_compute in P. injection P as <-. reflexivity.
Defined.

(** *** Sequencing and traces *)

Section RunFacts.
Context {St Req Resp Err Eff : Type}.
Implicit Types (p q : proc St Req Resp Err Eff) (t : list (event Req Resp Err Eff)).

Lemma run_seq server n p q st :
  run server n (seq p q) st =
    let '(st1, t1, n1) := run server n p st in
    let '(st2, t2, n2) := run server n1 q st1 in
    (st2, t1 ++ t2, n2).
Proof.
  revert n st.
  induction p as [|f k IH|e k IH|r k IH|rs k IH]; intros n st; cbn [seq run].
  - destruct (run server n q st) as [[st2 t2] n2]. reflexivity.
  - apply IH.
  - rewrite IH. destruct (run server n k st) as [[st1 t1] n1].
    destruct (run server n1 q st1) as [[st2 t2] n2]. reflexivity.
  - rewrite IH. destruct (run server (S n) (k (server n r)) st) as [[st1 t1] n1].
    destruct (run server n1 q st1) as [[st2 t2] n2]. reflexivity.
  - rewrite IH.
    destruct (run server (n + length rs) (k (all (answers server n rs))) st)
      as [[st1 t1] n1].
    destruct (run server n1 q st1) as [[st2 t2] n2].
    rewrite <- !app_assoc. reflexivity.
Qed.

Lemma outstanding_app cur t1 t2 :
  outstanding cur (t1 ++ t2) =
  outstanding cur t1 ++ outstanding (balance cur t1) t2.
Proof.
  revert cur. induction t1 as [|[r|r o|e] t1 IH]; intros cur; cbn;
    [reflexivity| rewrite IH; reflexivity ..].
Qed.

Lemma issued_app t1 t2 : issued (t1 ++ t2) = issued t1 ++ issued t2.
Proof.
  induction t1 as [|[r|r o|e] t1 IH]; cbn; [reflexivity| rewrite IH; reflexivity ..].
Qed.

End RunFacts.

Section UploadFacts.
Context `{CaseMapping} `{NumberDigits}.
Import UploadPage.





End UploadFacts.

Example uploadAll_sample :
  (run sampleServer 0 (@UploadPage.uploadAll exactDigits sampleQueue) sampleQueue).1.2 =
    [Issued (UploadPage.Upload (sampleFile "a.pdf"));
     Settled (UploadPage.Upload (sampleFile "a.pdf"))
       (Fulfilled {| UploadPage.total_chunks := VNumber (ofN 3) |});
     Effect (UploadPage.ToastSuccess (js "a.pdf indexed (3 chunks)"));
     Issued (UploadPage.Upload (sampleFile "b.png"));
     Settled (UploadPage.Upload (sampleFile "b.png"))
       (Fulfilled {| UploadPage.total_chunks := VNumber (ofN 3) |});
     Effect (UploadPage.ToastSuccess (js "b.png indexed (3 chunks)"))].
Proof. vm_compute. reflexivity. Qed.



(** ** AdminPage *)

Section AdminFacts.
Import AdminPage.

Lemma filter_length_delete {A} (P : A -> Prop) `{forall x, Decision (P x)}
    (l : list A) : forall i x,
  l !! i = Some x ->
  length (filter P l) =
    (length (filter P (delete i l)) + (if decide (P x) then 1 else 0))%nat.
Proof.
  induction l as [|a l IH]; intros i x Hi; [discriminate|].
  destruct i as [|i]; cbn in Hi.
  - injection Hi as ->. cbn [delete list_delete].
    rewrite filter_cons.
    destruct (decide (P x)); cbn; rewrite ?Nat.add_1_r, ?Nat.add_0_r; reflexivity.
  - cbn [delete list_delete]. rewrite !filter_cons.
    specialize (IH i x Hi).
    destruct (decide (P a)); cbn; [f_equal|]; exact IH.
Qed.

Lemma rebuilds_delete (l : list (task state request response error effect)) i t :
  l !! i = Some t ->
  length (filter (fun t => isRebuild t) l) =
    (length (filter (fun t => isRebuild t) (delete i l)) +
     (if isRebuild t then 1 else 0))%nat.
Proof.
  intros Hi. rewrite (filter_length_delete _ l i t Hi).
  destruct (isRebuild t); destruct (decide _) as [d|d]; try reflexivity.
  - destruct d. exact I.
  - destruct d.
Qed.

Lemma rebuildsInFlight_snoc st l t :
  rebuildsInFlight {| current := st; inflight := l ++ [t] |} =
  (length (filter (fun t => isRebuild t) l) + (if isRebuild t then 1 else 0))%nat.
Proof.
  unfold rebuildsInFlight. cbn. rewrite filter_app, length_app, filter_cons.
  destruct (isRebuild t); cbn; reflexivity.
Qed.

Lemma fetch_not_rebuild k :
  isRebuild (WaitingAll [GetAuditLogs; GetUsers] k) = false.
Proof. vm_compute. reflexivity. Qed.

Lemma exec_fetchData_settle o st :
  (exec (fetchData_settle o) st).2 = None /\
  rebuilding (exec (fetchData_settle o) st).1.1 = rebuilding st.
Proof.
  destruct o as [[|a [|b l]]|err]; try (split; reflexivity).
  unfold fetchData_settle. case_bool_decide; split; reflexivity.
Qed.

Lemma invariant_mounted : pageInvariant mounted.
Proof.
  split.
  - apply Forall_singleton. right. reflexivity.
  - reflexivity.
Qed.

Lemma invariant_step role rt rt' :
  pageInvariant rt -> step (controls role) rt rt' -> pageInvariant rt'.
Proof.
  intros [K C] S. destruct S as [rt ev p Hp|rt i r k o Hi|rt i rs k o Hi].
  - unfold controls in Hp. destruct (isAdmin role); [|discriminate].
    destruct ev as [| |t].
    + unfold rebuildDisabled in Hp.
      destruct (rebuilding (current rt)) eqn:R; [discriminate|].
      injection Hp as <-. unfold start. cbn. split.
      * apply Forall_app. split; [exact K|]. apply Forall_singleton. left. reflexivity.
      * rewrite rebuildsInFlight_snoc. unfold rebuildsInFlight in C.
        rewrite C. reflexivity.
    + case_bool_decide; [|discriminate].
      injection Hp as <-. unfold start. cbn. split.
      * apply Forall_app. split; [exact K|]. apply Forall_singleton. right. reflexivity.
      * rewrite rebuildsInFlight_snoc. unfold rebuildsInFlight in C.
        rewrite C, fetch_not_rebuild. cbn [current setLoading rebuilding].
        destruct (rebuilding (current rt)); reflexivity.
    + injection Hp as <-. unfold start. cbn. split.
      * rewrite app_nil_r. exact K.
      * unfold rebuildsInFlight in *. cbn. rewrite app_nil_r. exact C.
  - assert (Kt : knownTask (Waiting r k)).
    { rewrite Forall_forall in K. apply K. eapply list_elem_of_lookup_2. exact Hi. }
    destruct Kt as [E|E]; [|discriminate]. injection E as -> ->.
    pose proof (rebuilds_delete _ _ _ Hi) as D.
    cbn [isRebuild] in D. unfold rebuildsInFlight in C. rewrite C in D.
    destruct (rebuilding (current rt)) eqn:R; [|lia].
    unfold start. destruct o as [res|err]; cbn; (split;
      [ apply Forall_app; split; [apply Forall_delete; exact K|];
        apply Forall_singleton; right; reflexivity
      | rewrite rebuildsInFlight_snoc, fetch_not_rebuild; cbn; lia ]).
  - assert (Kt : knownTask (WaitingAll rs k)).
    { rewrite Forall_forall in K. apply K. eapply list_elem_of_lookup_2. exact Hi. }
    destruct Kt as [E|E]; [discriminate|]. injection E as -> ->.
    pose proof (rebuilds_delete _ _ _ Hi) as D.
    rewrite fetch_not_rebuild in D. unfold rebuildsInFlight in C. rewrite C in D.
    destruct (exec_fetchData_settle o (current rt)) as [X R].
    unfold start. cbn [current inflight].
    destruct (exec (fetchData_settle o) (current rt)) as [[st' es] t].
    cbn in X, R. subst t. split.
    + cbn. rewrite app_nil_r. apply Forall_delete. exact K.
    + unfold rebuildsInFlight. cbn. rewrite app_nil_r, R. lia.
Qed.

Lemma invariant_reachable role rt :
  reachable (controls role) mounted rt -> pageInvariant rt.
Proof.
  induction 1 as [|rt rt' _ IH S].
  - apply invariant_mounted.
  - exact (invariant_step role rt rt' IH S).
Qed.

End AdminFacts.

(** C5, amended: in every state one mounted instance of the admin page
    can reach, by user events and settlements of its requests in any
    order, at most one rebuild request of that instance is in flight. The rebuild button is disabled exactly while
    one is in flight, from the click that requests it until the request
    settles; while it is disabled a click does not reach [rebuildIndex],
    and no step of the page leads to a second rebuild request. *)
Theorem rebuild_single_flight (role : option jsstring) (rt : adminRuntime) :
  reachable (AdminPage.controls role) AdminPage.mounted rt ->
  (AdminPage.rebuildsInFlight rt <= 1)%nat /\
  (AdminPage.rebuildDisabled (current rt) = true <->
   AdminPage.rebuildsInFlight rt = 1%nat) /\
  (AdminPage.rebuildsInFlight rt = 1%nat ->
   AdminPage.controls role (current rt) AdminPage.ClickRebuild = None) /\
  (forall rt', step (AdminPage.controls role) rt rt' ->
     (AdminPage.rebuildsInFlight rt' <= 1)%nat).
Proof.
  intros R. pose proof (invariant_reachable role rt R) as [K C].
  unfold AdminPage.rebuildDisabled.
  repeat split.
  - rewrite C. destruct (AdminPage.rebuilding (current rt)); lia.
  - intros E. rewrite C, E. reflexivity.
  - intros E. rewrite C in E.
    destruct (AdminPage.rebuilding (current rt)); [reflexivity|discriminate].
  - intros E. rewrite C in E. unfold AdminPage.controls, AdminPage.rebuildDisabled.
    destruct (AdminPage.rebuilding (current rt)); [|discriminate].
    destruct (AdminPage.isAdmin role); reflexivity.
  - intros rt' S.
    pose proof (invariant_step role rt rt' (conj K C) S) as [_ C'].
    rewrite C'. destruct (AdminPage.rebuilding (current rt')); lia.
Qed.

Lemma rebuild_single_flight_witness :
  reachable (AdminPage.controls (Some (js "admin"))) AdminPage.mounted rebuildClicked /\
  AdminPage.rebuildsInFlight rebuildClicked = 1%nat /\
  AdminPage.controls (Some (js "admin")) (current rebuildClicked)
    AdminPage.ClickRebuild = None.
Proof.
  assert (R : reachable (AdminPage.controls (Some (js "admin")))
                AdminPage.mounted rebuildClicked).
  { eapply reach_step; [apply reach_init|].
    apply (step_user (AdminPage.controls (Some (js "admin"))) AdminPage.mounted
             AdminPage.ClickRebuild AdminPage.rebuildIndex).
    reflexivity. }
  split; [exact R|]. split; [reflexivity|].
  destruct (rebuild_single_flight (Some (js "admin")) rebuildClicked R)
    as [_ [_ [N _]]].
  apply N. reflexivity.
Defined.

(** * Further properties *)

(** ** QueryPage: the mounted page *)

Section QueryRuntime.
Import QueryPage.

Lemma trimStart_fixed (s : jsstring) :
  (forall c r, s = c :: r -> isWhiteSpace c = false) -> trimStart s = s.
Proof.
  destruct s as [|c r]; [reflexivity|]. intros Hs. cbn.
  rewrite (Hs c r eq_refl). reflexivity.
Qed.

Lemma trimEnd_fixed (s : jsstring) :
  (forall c r, s = r ++ [c] -> isWhiteSpace c = false) -> trimEnd s = s.
Proof.
  intros Hs. unfold trimEnd. rewrite trimStart_fixed.
  - apply rev_involutive.
  - intros c r E. apply (Hs c (rev r)).
    rewrite <- (rev_involutive s), E. reflexivity.
Qed.

Lemma trim_trim (s : jsstring) : trim (trim s) = trim s.
Proof.
  unfold trim at 1. rewrite trimStart_fixed.
  - apply trimEnd_fixed. intros c r. apply trim_last.
  - intros c r. apply trim_head.
Qed.

Lemma exec_sendQuery_settle (o : settlement error response) (st : state) :
  exists es,
    exec (sendQuery_settle o) st =
      ({| messages := messages st ++ [reply o]; input := input st;
          loading := false |}, es, None).
Proof. destruct o; eexists; reflexivity. Qed.

Lemma exec_sendQuery_blocked (st : state) :
  submitDisabled st = true ->
  exec (sendQuery st) st = (st, [PreventDefault], None).
Proof.
  unfold submitDisabled, sendQuery. intros G. cbn [seq emit exec].
  rewrite G. reflexivity.
Qed.

Lemma exec_sendQuery_open (st : state) :
  submitDisabled st = false ->
  exec (sendQuery st) st =
    ({| messages := messages st ++ [userMessage (trim (input st))];
        input := []; loading := true |},
     [PreventDefault],
     Some (Waiting {| path := js "/query"; query := trim (input st); top_k := 5 |}
                   sendQuery_settle)).
Proof.
  unfold submitDisabled, sendQuery. intros G. cbn [seq emit exec].
  rewrite G. reflexivity.
Qed.

Lemma submit_open_query (st : state) :
  submitDisabled st = false ->
  trim (input st) <> [] /\ loading st = false.
Proof.
  unfold submitDisabled. destruct (trim (input st)), (loading st); cbn;
    try discriminate. intros _. split; [discriminate|reflexivity].
Qed.

Lemma wellFormed_user (s : jsstring) :
  trim s <> [] -> wellFormed (userMessage (trim s)).
Proof.
  intros Hs. left. split; [reflexivity|]. split; [reflexivity|].
  exists (trim s). split; [reflexivity|]. split; [exact Hs|apply trim_trim].
Qed.

Lemma wellFormed_reply (o : settlement error response) : wellFormed (reply o).
Proof. right. destruct o; reflexivity. Qed.

Lemma query_invariant_mounted : pageInvariant mounted.
Proof. split; [constructor|]. split; [reflexivity|constructor]. Qed.

Lemma query_invariant_step rt rt' :
  pageInvariant rt -> step controls rt rt' -> pageInvariant rt'.
Proof.
  intros [K [C W]] S. destruct S as [rt ev p Hp|rt i r k o Hi|rt i rs k o Hi].
  - destruct ev as [|v|q|]; cbn [controls] in Hp.
    + injection Hp as <-. unfold start, pageInvariant.
      destruct (submitDisabled (current rt)) eqn:G.
      * rewrite (exec_sendQuery_blocked _ G). cbn [current inflight opt_list].
        rewrite app_nil_r. split; [exact K|]. split; [exact C|exact W].
      * rewrite (exec_sendQuery_open _ G).
        destruct (submit_open_query _ G) as [Q L].
        cbn [current inflight opt_list messages loading]. split; [|split].
        -- apply Forall_app. split; [exact K|]. apply Forall_singleton.
           eexists. split; [reflexivity|]. cbn [path top_k query].
           repeat split; try assumption. apply trim_trim.
        -- rewrite length_app, C, L. reflexivity.
        -- apply Forall_app. split; [exact W|]. apply Forall_singleton.
           apply wellFormed_user. exact Q.
    + unfold inputDisabled in Hp. destruct (loading (current rt)) eqn:L;
        [discriminate|]. injection Hp as <-. unfold start, pageInvariant.
      cbn. rewrite app_nil_r, L.
      split; [exact K|]. split; [rewrite C; reflexivity|exact W].
    + destruct (suggestionsShown (current rt) && bool_decide (q ∈ suggestions));
        [|discriminate]. injection Hp as <-. unfold start, pageInvariant.
      cbn. rewrite app_nil_r. split; [exact K|]. split; [exact C|exact W].
    + destruct (clearShown (current rt)); [|discriminate].
      injection Hp as <-. unfold start, pageInvariant. cbn. rewrite app_nil_r.
      split; [exact K|]. split; [exact C|constructor].
  - assert (Kt : queryTask (Waiting r k)).
    { rewrite Forall_forall in K. apply K. eapply list_elem_of_lookup_2. exact Hi. }
    destruct Kt as [r' [E _]]. injection E as -> ->.
    assert (Hl : (length (delete i (inflight rt)) = pred (length (inflight rt)))%nat).
    { rewrite length_delete; [lia|]. eexists. exact Hi. }
    assert (Hpos : (0 < length (inflight rt))%nat).
    { apply lookup_lt_Some in Hi. lia. }
    unfold start, pageInvariant. cbn [current inflight].
    destruct (exec_sendQuery_settle o (current rt)) as [es ->].
    cbn [current inflight opt_list messages loading].
    rewrite app_nil_r. split; [apply Forall_delete; exact K|]. split.
    + rewrite Hl, C. destruct (loading (current rt)); [reflexivity|].
      rewrite C in Hpos. lia.
    + apply Forall_app. split; [exact W|]. apply Forall_singleton.
      apply wellFormed_reply.
  - exfalso. assert (Kt : queryTask (WaitingAll rs k)).
    { rewrite Forall_forall in K. apply K. eapply list_elem_of_lookup_2. exact Hi. }
    destruct Kt as [r' [E _]]. discriminate.
Qed.

Lemma query_invariant_reachable rt :
  reachable controls mounted rt -> pageInvariant rt.
Proof.
  induction 1 as [|rt rt' _ IH S].
  - apply query_invariant_mounted.
  - exact (query_invariant_step rt rt' IH S).
Qed.

End QueryRuntime.

(** X1: in every state a mounted query page can reach, by user events
    and settlements in any order, at most one query request is in
    flight, and one is in flight exactly while [loading] is set (which is
    also when the input is disabled). Every request in flight is a POST
    to [/query] with [top_k] 5 whose query is not empty and carries no
    surrounding white space. The guard inside [sendQuery] is what
    ensures this: submissions are let through to the handler in every
    state. *)
Theorem query_single_flight
    (rt : runtime QueryPage.state QueryPage.request QueryPage.response error
                  QueryPage.effect) :
  reachable QueryPage.controls QueryPage.mounted rt ->
  (length (inflight rt) <= 1)%nat /\
  (QueryPage.loading (current rt) = true <-> length (inflight rt) = 1%nat) /\
  (QueryPage.inputDisabled (current rt) = true <-> inflight rt <> []) /\
  Forall QueryPage.queryTask (inflight rt).
Proof.
  intros R. destruct (query_invariant_reachable rt R) as [K [C _]].
  unfold QueryPage.inputDisabled.
  destruct (QueryPage.loading (current rt)).
  - split; [lia|]. split; [split; auto|]. split; [|exact K].
    split; [|reflexivity]. intros _ E. rewrite E in C. discriminate.
  - split; [lia|]. split; [|split; [|exact K]].
    + split; [discriminate|]. intros E. rewrite C in E. discriminate.
    + split; [discriminate|]. intros E.
      destruct (inflight rt); [destruct E; reflexivity|discriminate].
Qed.

Lemma query_single_flight_witness :
  let rt := start (QueryPage.sendQuery
                     {| QueryPage.messages := []; QueryPage.input := js " hi ";
                        QueryPage.loading := false |})
              (start (update (QueryPage.setInput (js " hi "))) QueryPage.mounted) in
  reachable QueryPage.controls QueryPage.mounted rt /\
  length (inflight rt) = 1%nat /\
  QueryPage.loading (current rt) = true.
Proof.
  intros rt.
  assert (R : reachable QueryPage.controls QueryPage.mounted rt).
  { eapply reach_step.
    - eapply reach_step; [apply reach_init|].
      apply (step_user QueryPage.controls QueryPage.mounted
               (QueryPage.ChangeInput (js " hi "))). reflexivity.
    - apply (step_user QueryPage.controls _ QueryPage.Submit). reflexivity. }
  split; [exact R|]. split; [reflexivity|].
  destruct (query_single_flight rt R) as [_ [L _]]. apply L. reflexivity.
Defined.

(** X2: in every state a mounted query page can reach, each entry of
    the transcript is either a question of the user, whose content is a
    non-empty string without surrounding white space and which has no
    citations, or an entry with the role of the assistant. *)
Theorem transcript_well_formed
    (rt : runtime QueryPage.state QueryPage.request QueryPage.response error
                  QueryPage.effect) :
  reachable QueryPage.controls QueryPage.mounted rt ->
  Forall QueryPage.wellFormed (QueryPage.messages (current rt)).
Proof. intros R. apply (query_invariant_reachable rt R). Qed.

Lemma transcript_well_formed_witness :
  let rt := start (QueryPage.sendQuery
                     {| QueryPage.messages := []; QueryPage.input := js " hi ";
                        QueryPage.loading := false |})
              (start (update (QueryPage.setInput (js " hi "))) QueryPage.mounted) in
  QueryPage.messages (current rt) = [QueryPage.userMessage (js "hi")] /\
  Forall QueryPage.wellFormed (QueryPage.messages (current rt)).
Proof.
  intros rt. split; [reflexivity|].
  apply transcript_well_formed.
  eapply reach_step.
  - eapply reach_step; [apply reach_init|].
    apply (step_user QueryPage.controls QueryPage.mounted
             (QueryPage.ChangeInput (js " hi "))). reflexivity.
  - apply (step_user QueryPage.controls _ QueryPage.Submit). reflexivity.
Defined.

(** X3: a call of [sendQuery] that passes the guard, run alone, issues
    exactly one request and ends, whatever the server answers, with the
    question and then the reply appended to the transcript, the input
    emptied and [loading] cleared. *)
Theorem sendQuery_completes (st : QueryPage.state)
    (server : nat -> QueryPage.request -> settlement error QueryPage.response) :
  QueryPage.submitDisabled st = false ->
  let r := {| QueryPage.path := js "/query";
              QueryPage.query := trim (QueryPage.input st);
              QueryPage.top_k := 5 |} in
  let out := run server 0 (QueryPage.sendQuery st) st in
  out.1.1 =
    {| QueryPage.messages :=
         QueryPage.messages st ++
         [QueryPage.userMessage (trim (QueryPage.input st));
          QueryPage.reply (server 0%nat r)];
       QueryPage.input := [];
       QueryPage.loading := false |} /\
  issued out.1.2 = [r] /\
  out.2 = 1%nat.
Proof.
  intros G r out. subst out r. unfold QueryPage.submitDisabled in G.
  unfold QueryPage.sendQuery. cbn [seq emit run]. rewrite G.
  cbn [seq update run].
  destruct (server 0%nat _) as [res|err]; cbn;
    unfold QueryPage.setMessages, QueryPage.setInput, QueryPage.setLoading; cbn;
    rewrite <- app_assoc; repeat split.
Qed.

Lemma sendQuery_completes_witness :
  let st := {| QueryPage.messages := []; QueryPage.input := js " hi ";
               QueryPage.loading := false |} in
  (run (fun _ _ => Fulfilled sampleResponse) 0 (QueryPage.sendQuery st) st).1.1 =
    {| QueryPage.messages :=
         [QueryPage.userMessage (js "hi"); QueryPage.answerMessage sampleResponse];
       QueryPage.input := [];
       QueryPage.loading := false |}.
Proof.
  intros st.
  apply (sendQuery_completes st (fun _ _ => Fulfilled sampleResponse)).
  reflexivity.
Defined.

(** X4: clearing the chat while a query is loading does not cancel the
    query: for any input that passes the guard and any settlement, the
    page reaches a state with no request in flight whose transcript is
    the reply alone, without its question. *)
Theorem clear_while_loading (v : jsstring)
    (o : settlement error QueryPage.response) :
  trim v <> [] ->
  exists rt,
    reachable QueryPage.controls QueryPage.mounted rt /\
    inflight rt = [] /\
    QueryPage.loading (current rt) = false /\
    QueryPage.messages (current rt) = [QueryPage.reply o].
Proof.
  intros Hv.
  set (st1 := {| QueryPage.messages := []; QueryPage.input := v;
                 QueryPage.loading := false |}).
  set (rt1 := {| current := st1; inflight := [] |}
      : runtime QueryPage.state QueryPage.request QueryPage.response error
                QueryPage.effect).
  assert (G : QueryPage.submitDisabled st1 = false).
  { unfold QueryPage.submitDisabled.
    change (QueryPage.input st1) with v. change (QueryPage.loading st1) with false.
    destruct (trim v); [congruence|reflexivity]. }
  set (r := {| QueryPage.path := js "/query"; QueryPage.query := trim v;
               QueryPage.top_k := 5 |}).
  set (rt2 := {| current := {| QueryPage.messages := [QueryPage.userMessage (trim v)];
                               QueryPage.input := []; QueryPage.loading := true |};
                 inflight := [Waiting r QueryPage.sendQuery_settle] |}
      : runtime QueryPage.state QueryPage.request QueryPage.response error
                QueryPage.effect).
  set (rt3 := {| current := {| QueryPage.messages := [];
                               QueryPage.input := []; QueryPage.loading := true |};
                 inflight := [Waiting r QueryPage.sendQuery_settle] |}
      : runtime QueryPage.state QueryPage.request QueryPage.response error
                QueryPage.effect).
  assert (R1 : reachable QueryPage.controls QueryPage.mounted rt1).
  { eapply reach_step; [apply reach_init|].
    apply (step_user QueryPage.controls QueryPage.mounted (QueryPage.ChangeInput v)
             (update (QueryPage.setInput v))).
    reflexivity. }
  assert (R2 : reachable QueryPage.controls QueryPage.mounted rt2).
  { eapply reach_step; [exact R1|].
    replace rt2 with (start (QueryPage.sendQuery st1) rt1).
    - apply (step_user QueryPage.controls rt1 QueryPage.Submit). reflexivity.
    - unfold start. change (current rt1) with st1.
      rewrite (exec_sendQuery_open _ G). reflexivity. }
  assert (R3 : reachable QueryPage.controls QueryPage.mounted rt3).
  { eapply reach_step; [exact R2|].
    apply (step_user QueryPage.controls rt2 QueryPage.ClickClear
             (update (QueryPage.setMessages (fun _ => [])))).
    reflexivity. }
  eexists. split.
  - eapply reach_step; [exact R3|].
    apply (step_settle QueryPage.controls rt3 0%nat r QueryPage.sendQuery_settle o).
    reflexivity.
  - unfold start. cbn [current inflight].
    destruct (exec_sendQuery_settle o (current rt3)) as [es ->].
    repeat split.
Qed.

Lemma clear_while_loading_witness :
  exists rt,
    reachable QueryPage.controls QueryPage.mounted rt /\
    inflight rt = [] /\
    QueryPage.loading (current rt) = false /\
    QueryPage.messages (current rt) = [QueryPage.answerMessage sampleResponse].
Proof.
  apply (clear_while_loading (js "why?") (Fulfilled sampleResponse)).
  vm_compute. discriminate.
Defined.

(** ** DocumentsPage: refresh and delete *)

Section DocumentsRuntime.
Context `{CaseMapping}.
Import DocumentsPage.

Lemma rows_setDeleting (d : option jsstring) (st : state) :
  rows (setDeleting d st) = rows st.
Proof. reflexivity. Qed.

Lemma filter_filter_same {A} (P : A -> Prop) `{forall x, Decision (P x)}
    (l : list A) : filter P (filter P l) = filter P l.
Proof.
  apply filter_all. intros x Hx. apply list_elem_of_filter in Hx. tauto.
Qed.

End DocumentsRuntime.


(** X6: a successful delete of a document whose id no entry of the list
    carries leaves the list as it is, and a second successful delete of
    the same document changes nothing more: once removed, the entries
    stay removed. *)
Theorem deleteDoc_absent_or_repeated (doc : DocumentsPage.document)
    (st : DocumentsPage.state) (res res' : DocumentsPage.response) :
  let once := (exec (DocumentsPage.deleteDoc_settle doc (Fulfilled res)) st).1.1 in
  let twice := (exec (DocumentsPage.deleteDoc_settle doc (Fulfilled res')) once).1.1 in
  ((forall d, d ∈ DocumentsPage.docs st ->
      DocumentsPage.id d <> DocumentsPage.id doc) ->
   DocumentsPage.docs once = DocumentsPage.docs st) /\
  (forall d, d ∈ DocumentsPage.docs once ->
     DocumentsPage.id d <> DocumentsPage.id doc) /\
  DocumentsPage.docs twice = DocumentsPage.docs once.
Proof.
  intros once twice. subst once twice. cbn. split; [|split].
  - intros Habs. apply filter_all. exact Habs.
  - intros d Hd. apply list_elem_of_filter in Hd. tauto.
  - apply filter_filter_same.
Qed.

Lemma deleteDoc_absent_or_repeated_witness :
  let doc := sampleDocument "d9" "gone.pdf" "pdf" in
  DocumentsPage.docs
    (exec (DocumentsPage.deleteDoc_settle doc (Fulfilled {| DocumentsPage.data := [] |}))
          (sampleDocState "")).1.1 = sampleDocs.
Proof.
  intros doc.
  destruct (deleteDoc_absent_or_repeated doc (sampleDocState "")
              {| DocumentsPage.data := [] |} {| DocumentsPage.data := [] |})
    as [A _].
  apply A. intros d Hd. unfold sampleDocState, sampleDocs in Hd. cbn in Hd.
  rewrite !elem_of_cons, elem_of_nil in Hd.
  destruct Hd as [->|[->|[->|[]]]]; vm_compute; discriminate.
Defined.

(** X7: the delete marker remembers one document only. When two rows
    show documents with different ids and no delete is marked, the user
    can ask to delete the first, then the second, and then the first
    again: the Delete item of the first row is enabled although its
    request is still pending, and two delete requests for the same
    document are in flight together. *)
Theorem delete_marker_forgets (L : CaseMapping) (st : DocumentsPage.state)
    (i j : nat) (a b : DocumentsPage.document) :
  DocumentsPage.rows st !! i = Some a ->
  DocumentsPage.rows st !! j = Some b ->
  DocumentsPage.id a <> DocumentsPage.id b ->
  DocumentsPage.deleting st = None ->
  let task_of d :=
    Waiting (DocumentsPage.DeleteDocument (js "/documents/" ++ DocumentsPage.id d))
            (DocumentsPage.deleteDoc_settle d) in
  exists rt rt',
    reachable DocumentsPage.controls {| current := st; inflight := [] |} rt /\
    inflight rt = [task_of a; task_of b] /\
    DocumentsPage.deleteDisabled (current rt) a = false /\
    step DocumentsPage.controls rt rt' /\
    inflight rt' = [task_of a; task_of b; task_of a].
Proof.
  intros Ha Hb Hab Hd task_of.
  set (rt0 := {| current := st; inflight := [] |}
      : runtime DocumentsPage.state DocumentsPage.request DocumentsPage.response
                error DocumentsPage.effect).
  set (rt1 := start (DocumentsPage.deleteDoc a) rt0).
  set (rt2 := start (DocumentsPage.deleteDoc b) rt1).
  set (rt3 := start (DocumentsPage.deleteDoc a) rt2).
  assert (Da : DocumentsPage.deleteDisabled (current rt2) a = false).
  { unfold DocumentsPage.deleteDisabled. cbn. apply bool_decide_eq_false.
    intros E. injection E as E. apply Hab. symmetry. exact E. }
  exists rt2, rt3. split; [|split; [reflexivity|split; [exact Da|split; [|reflexivity]]]].
  - eapply reach_step.
    + eapply reach_step; [apply reach_init|].
      apply (step_user DocumentsPage.controls rt0 (DocumentsPage.ClickDelete i)
               (DocumentsPage.deleteDoc a)).
      cbn [DocumentsPage.controls current rt0]. rewrite Ha.
      unfold DocumentsPage.deleteDisabled. rewrite Hd. reflexivity.
    + apply (step_user DocumentsPage.controls rt1 (DocumentsPage.ClickDelete j)
               (DocumentsPage.deleteDoc b)).
      cbn [DocumentsPage.controls].
      change (DocumentsPage.rows (current rt1)) with (DocumentsPage.rows st).
      rewrite Hb. unfold DocumentsPage.deleteDisabled. cbn.
      rewrite bool_decide_eq_false_2; [reflexivity|].
      intros E. injection E as E. exact (Hab E).
  - apply (step_user DocumentsPage.controls rt2 (DocumentsPage.ClickDelete i)
             (DocumentsPage.deleteDoc a)).
    cbn [DocumentsPage.controls].
    change (DocumentsPage.rows (current rt2)) with (DocumentsPage.rows st).
    rewrite Ha, Da. reflexivity.
Qed.

Lemma delete_marker_forgets_witness :
  exists rt,
    reachable (@DocumentsPage.controls basicLatin)
      {| current := sampleDocState ""; inflight := [] |} rt /\
    length (inflight rt) = 2%nat /\
    DocumentsPage.deleteDisabled (current rt)
      (sampleDocument "d1" "Report.PDF" "pdf") = false.
Proof.
  destruct (delete_marker_forgets basicLatin (sampleDocState "") 0 1
              (sampleDocument "d1" "Report.PDF" "pdf")
              (sampleDocument "d2" "notes.docx" "docx"))
    as [rt [rt' [R [I [D _]]]]].
  - reflexivity.
  - reflexivity.
  - vm_compute. discriminate.
  - reflexivity.
  - exists rt. split; [exact R|]. split; [rewrite I; reflexivity|exact D].
Defined.

(** ** The size formats on small files *)

Lemma below_1024 (n : N) :
  n < 1024 -> lt (ofN n) (ofN 1024) = true.
Proof.
  intros Hn.
  assert (A : forallb (fun k => lt (ofN (N.of_nat k)) (ofN 1024)) (List.seq 0%nat 1024%nat) = true).
  { vm_compute. reflexivity. }
  rewrite forallb_forall in A. rewrite <- (N2Nat.id n). apply A.
  apply in_seq. lia.
Qed.

(** X21: for every whole number of bytes below 1024 both [formatSize]
    functions show the number itself followed by [" B"] (so ["0 B"] for
    an empty file), and for exactly 1024 bytes both show ["1.0 KB"]:
    the first kilobyte is nowhere rounded. *)
Theorem formatSize_bytes_range (D : NumberDigits) (n : N) :
  n < 1024 ->
  DocumentsPage.formatSize (ofN n) = numberToString (ofN n) ++ js " B" /\
  UploadPage.formatSize (ofN n) = numberToString (ofN n) ++ js " B" /\
  DocumentsPage.formatSize (ofN 1024) = js "1.0 KB" /\
  UploadPage.formatSize (ofN 1024) = js "1.0 KB".
Proof.
  intros Hn. split; [|split; [|split; reflexivity]].
  - pose proof (below_1024 n Hn) as B. unfold DocumentsPage.formatSize.
    destruct (ofN n) as [s|s| |s m e]; try (rewrite B; reflexivity).
    discriminate B.
  - unfold UploadPage.formatSize. rewrite (below_1024 n Hn). reflexivity.
Qed.

Lemma formatSize_bytes_range_witness :
  @DocumentsPage.formatSize exactDigits (ofN 1023) = js "1023 B".
Proof.
  destruct (formatSize_bytes_range exactDigits 1023) as [E _].
  - reflexivity.
  - rewrite E. vm_compute. reflexivity.
Defined.

(** ** UploadPage: the queue *)

Section UploadQueue.
Context `{CaseMapping} `{NumberDigits}.
Import UploadPage.

Lemma getFileType_total (n : jsstring) : exists ty, getFileType n = Some ty.
Proof.
  destruct (pop_split 46 n) as [ext P].
  destruct (getFileType_cases _ n ext P) as [[_ [ty [E _]]]|[_ E]];
    eexists; exact E.
Qed.

Lemma queueItems (newFiles : list file) : forall rids,
  length rids = length newFiles ->
  exists items,
    mapM (fun fr => queueItem fr.1 fr.2) (zip newFiles rids) = Some items /\
    map item_file items = newFiles /\
    map id items = rids /\
    Forall (fun it => name it = file_name (item_file it) /\
                      size it = file_size (item_file it) /\
                      getFileType (name it) = Some (type it)) items.
Proof.
  induction newFiles as [|f fs IH]; intros [|rid rids] Hl; try discriminate.
  - exists []. repeat split. constructor.
  - injection Hl as Hl. destruct (IH rids Hl) as [items [M [F [I P]]]].
    destruct (getFileType_total (file_name f)) as [ty T].
    exists ({| item_file := f; id := rid; name := file_name f;
               size := file_size f; type := ty |} :: items).
    split; [|split; [|split]].
    + apply mapM_Some_2. apply mapM_Some_1 in M.
      change (zip (f :: fs) (rid :: rids)) with ((f, rid) :: zip fs rids).
      constructor; [|exact M]. unfold queueItem. cbn [fst snd].
      rewrite T. reflexivity.
    + cbn. rewrite F. reflexivity.
    + cbn. rewrite I. reflexivity.
    + constructor; [|exact P]. cbn. auto.
Qed.

Lemma run_uploadFile_state server n (f : fileItem) st :
  exists r,
    (run server n (uploadFile f) st).1.1 =
      {| files := files st; dragActive := dragActive st;
         uploading := <[id f := false]> (<[id f := true]> (uploading st));
         results := <[id f := r]> (results st) |} /\
    (r = match server n (Upload (item_file f)) with
         | Fulfilled res => Success res
         | Rejected err => Failure (failureText err)
         end).
Proof.
  unfold uploadFile. cbn [seq update run].
  destruct (server n (Upload (item_file f))) as [res|err]; cbn;
    eexists; split; reflexivity.
Qed.

Lemma failureText_nonempty (err : error) : failureText err <> [].
Proof.
  unfold failureText. destruct (detail err) as [[|c s]|]; try discriminate.
Qed.

Lemma run_upload_loop_state server (l : list fileItem) : forall n st,
  let st' := (run server n
                (foldr (fun f rest => uploadFile f;; rest)%proc Return l) st).1.1 in
  files st' = files st /\
  dragActive st' = dragActive st /\
  (forall k, is_Some (results st !! k) -> is_Some (results st' !! k)) /\
  (forall f, f ∈ l -> is_Some (results st' !! id f)) /\
  (forall k, (forall f, f ∈ l -> id f <> k) -> results st' !! k = results st !! k).
Proof.
  induction l as [|f l IH]; intros n st; cbn [foldr].
  - cbn. repeat split; auto. intros f Hf. inversion Hf.
  - rewrite run_seq.
    destruct (run_uploadFile_state server n f st) as [r [E _]].
    destruct (run server n (uploadFile f) st) as [[st1 t1] n1] eqn:R1.
    cbn [fst] in E. subst st1.
    specialize (IH n1 {| files := files st; dragActive := dragActive st;
         uploading := <[id f := false]> (<[id f := true]> (uploading st));
         results := <[id f := r]> (results st) |}).
    destruct (run server n1 _ _) as [[st2 t2] n2]. cbn [fst] in IH |- *.
    destruct IH as [F [D [Mono [Done Frame]]]]. cbn in F, D, Mono, Done, Frame.
    split; [exact F|]. split; [exact D|]. split; [|split].
    + intros k Hk. apply Mono. apply lookup_insert_is_Some'. right. exact Hk.
    + intros g Hg. apply elem_of_cons in Hg. destruct Hg as [->|Hg].
      * apply Mono. rewrite lookup_insert_eq. eexists. reflexivity.
      * apply Done. exact Hg.
    + intros k Hk. rewrite Frame.
      * apply lookup_insert_ne. apply Hk. left.
      * intros g Hg. apply Hk. right. exact Hg.
Qed.

Lemma pending_nil_iff (st : state) :
  pending st = [] <-> processAllDisabled st = true.
Proof.
  unfold pending, processAllDisabled. induction (files st) as [|f l IH].
  - split; reflexivity.
  - cbn [forallb]. rewrite filter_cons.
    destruct (decide (results st !! id f = None)) as [E|E].
    + split; [discriminate|].
      rewrite (bool_decide_eq_false_2 (is_Some (results st !! id f))).
      * discriminate.
      * rewrite E. intros [x Hx]. discriminate.
    + rewrite IH.
      rewrite (bool_decide_eq_true_2 (is_Some (results st !! id f))).
      * reflexivity.
      * destruct (results st !! id f); [eexists; reflexivity|congruence].
Qed.

End UploadQueue.

Lemma filter_none {A} (P : A -> Prop) `{forall x, Decision (P x)} (l : list A) :
  (forall x, x ∈ l -> ~ P x) -> filter P l = [].
Proof.
  induction l as [|a l IH]; intros Hl; [reflexivity|].
  rewrite filter_cons_False by (apply Hl; left).
  apply IH. intros x Hx. apply Hl. right. exact Hx.
Qed.

(** X8: [handleFiles] never throws: given one random id per file it
    appends one queue entry per offered file, in the order offered and
    after the entries already queued; each entry carries its file, its
    id, the name and size of the file and the class [getFileType] gives
    the name. Nothing else of the state changes. *)
Theorem handleFiles_appends (L : CaseMapping) (newFiles : list UploadPage.file)
    (rids : list jsstring) (st : UploadPage.state) :
  length rids = length newFiles ->
  exists items,
    UploadPage.handleFiles newFiles rids st =
      {| UploadPage.files := UploadPage.files st ++ items;
         UploadPage.dragActive := UploadPage.dragActive st;
         UploadPage.uploading := UploadPage.uploading st;
         UploadPage.results := UploadPage.results st |} /\
    map UploadPage.item_file items = newFiles /\
    map UploadPage.id items = rids /\
    Forall (fun it =>
              UploadPage.name it = UploadPage.file_name (UploadPage.item_file it) /\
              UploadPage.size it = UploadPage.file_size (UploadPage.item_file it) /\
              UploadPage.getFileType (UploadPage.name it) = Some (UploadPage.type it))
           items.
Proof.
  intros Hl. destruct (queueItems newFiles rids Hl) as [items [M P]].
  exists items. split; [|exact P].
  unfold UploadPage.handleFiles. rewrite M. reflexivity.
Qed.

Lemma handleFiles_appends_witness :
  exists items,
    @UploadPage.handleFiles basicLatin
      [sampleFile "c.mp3"; sampleFile "d.txt"] [js "k3"; js "k4"] sampleQueue =
      {| UploadPage.files := UploadPage.files sampleQueue ++ items;
         UploadPage.dragActive := false;
         UploadPage.uploading := ∅;
         UploadPage.results := ∅ |} /\
    map UploadPage.type items = [js "audio"; js "unknown"].
Proof.
  destruct (handleFiles_appends basicLatin
              [sampleFile "c.mp3"; sampleFile "d.txt"] [js "k3"; js "k4"]
              sampleQueue eq_refl) as [items [E _]].
  exists [sampleItem "k3" "c.mp3" "audio"; sampleItem "k4" "d.txt" "unknown"].
  split; reflexivity.
Defined.

Lemma handleFiles_roundtrip_items (L : CaseMapping) (f : UploadPage.file)
    (rid : jsstring) :
  exists it,
    mapM (fun fr => UploadPage.queueItem fr.1 fr.2) (zip [f] [rid]) = Some [it] /\
    UploadPage.id it = rid.
Proof.
  destruct (getFileType_total (UploadPage.file_name f)) as [ty T].
  eexists. split.
  - apply mapM_Some_2. constructor; [|constructor].
    unfold UploadPage.queueItem. cbn [fst snd]. rewrite T. reflexivity.
  - reflexivity.
Qed.

(** X9: [removeFile] drops the queue entries with the given id and the
    result recorded under it, and leaves the other entries and the other
    results as they are; the [uploading] object is not touched. Adding a
    file under an id that is not in use and removing it again gives back
    the state before the two steps. *)
Theorem removeFile_forgets (L : CaseMapping) (rid : jsstring)
    (st : UploadPage.state) :
  let st' := UploadPage.removeFile rid st in
  (forall g, g ∈ UploadPage.files st' <->
     g ∈ UploadPage.files st /\ UploadPage.id g <> rid) /\
  UploadPage.results st' !! rid = None /\
  (forall k, k <> rid ->
     UploadPage.results st' !! k = UploadPage.results st !! k) /\
  UploadPage.uploading st' = UploadPage.uploading st /\
  (forall f,
     (forall g, g ∈ UploadPage.files st -> UploadPage.id g <> rid) ->
     UploadPage.results st !! rid = None ->
     UploadPage.removeFile rid (UploadPage.handleFiles [f] [rid] st) = st).
Proof.
  intros st'. subst st'. unfold UploadPage.removeFile.
  cbn [UploadPage.files UploadPage.results UploadPage.uploading
       UploadPage.setFiles UploadPage.setResults].
  split; [|split; [|split; [|split]]].
  - intros g. rewrite list_elem_of_filter. tauto.
  - apply lookup_delete_eq.
  - intros k Hk. apply lookup_delete_ne. congruence.
  - reflexivity.
  - intros f Hfresh Hres.
    destruct (handleFiles_roundtrip_items L f rid) as [it [E I]].
    unfold UploadPage.handleFiles. rewrite E. destruct st as [fs da up rs].
    unfold UploadPage.setResults, UploadPage.setFiles.
    cbn [UploadPage.files UploadPage.results UploadPage.uploading
         UploadPage.dragActive] in *.
    rewrite filter_app, (filter_all _ fs) by exact Hfresh.
    rewrite filter_cons_False by (cbn; rewrite I; tauto).
    rewrite filter_nil, app_nil_r, delete_id by exact Hres. reflexivity.
Qed.

Lemma removeFile_forgets_witness :
  UploadPage.removeFile (js "k9")
    (@UploadPage.handleFiles basicLatin [sampleFile "e.doc"] [js "k9"] sampleQueue)
  = sampleQueue.
Proof.
  destruct (removeFile_forgets basicLatin (js "k9") sampleQueue)
    as [_ [_ [_ [_ R]]]].
  apply R.
  - intros g Hg. unfold sampleQueue in Hg. cbn in Hg.
    rewrite !elem_of_cons, elem_of_nil in Hg.
    destruct Hg as [->|[->|[]]]; vm_compute; discriminate.
  - reflexivity.
Defined.

(** X10: one upload, run alone, records under the id of the entry the
    success with the data of the response, or the failure with a text
    that is never empty (the detail of the error, else "Upload failed"),
    and leaves the entry marked as not uploading. Results and marks of
    other ids, and the queue, are unchanged, and entries with that id are
    no longer pending. *)
Theorem uploadFile_records (D : NumberDigits) (f : UploadPage.fileItem)
    (st : UploadPage.state)
    (server : nat -> UploadPage.request -> settlement error UploadPage.response) :
  let st' := (run server 0 (UploadPage.uploadFile f) st).1.1 in
  UploadPage.results st' !! UploadPage.id f =
    Some (match server 0%nat (UploadPage.Upload (UploadPage.item_file f)) with
          | Fulfilled res => UploadPage.Success res
          | Rejected err => UploadPage.Failure (UploadPage.failureText err)
          end) /\
  (forall err, UploadPage.failureText err <> []) /\
  UploadPage.uploading st' !! UploadPage.id f = Some false /\
  (forall k, k <> UploadPage.id f ->
     UploadPage.results st' !! k = UploadPage.results st !! k /\
     UploadPage.uploading st' !! k = UploadPage.uploading st !! k) /\
  UploadPage.files st' = UploadPage.files st /\
  (forall g, g ∈ UploadPage.pending st' -> UploadPage.id g <> UploadPage.id f).
Proof.
  intros st'. subst st'.
  destruct (run_uploadFile_state server 0%nat f st) as [r [-> ->]].
  cbn [UploadPage.results UploadPage.uploading UploadPage.files].
  split; [apply lookup_insert_eq|]. split; [apply failureText_nonempty|].
  split; [apply lookup_insert_eq|]. split; [|split; [reflexivity|]].
  - intros k Hk. split.
    + apply lookup_insert_ne. congruence.
    + rewrite !lookup_insert_ne by congruence. reflexivity.
  - intros g Hg. unfold UploadPage.pending in Hg.
    apply list_elem_of_filter in Hg. destruct Hg as [Hn _].
    cbn [UploadPage.results] in Hn. intros E. rewrite E, lookup_insert_eq in Hn.
    discriminate.
Qed.

(** X11: [uploadAll], run alone, ends with a result recorded for every
    queue entry: nothing is pending any more, PROCESS ALL is disabled,
    the queue itself is unchanged and the results recorded before the
    call are kept. A second [uploadAll] on the state reached issues no
    request. *)
Theorem uploadAll_completes (D : NumberDigits) (st : UploadPage.state)
    (server server' : nat -> UploadPage.request
                      -> settlement error UploadPage.response) :
  let st' := (run server 0 (UploadPage.uploadAll st) st).1.1 in
  UploadPage.files st' = UploadPage.files st /\
  UploadPage.pending st' = [] /\
  UploadPage.processAllDisabled st' = true /\
  (forall k, is_Some (UploadPage.results st !! k) ->
     UploadPage.results st' !! k = UploadPage.results st !! k) /\
  run server' 0 (UploadPage.uploadAll st') st' = (st', [], 0%nat).
Proof.
  intros st'. subst st'. unfold UploadPage.uploadAll at 1.
  pose proof (run_upload_loop_state server (UploadPage.pending st) 0%nat st)
    as [F [_ [Mono [Done Frame]]]].
  set (st' := (run server 0 _ st).1.1) in *.
  assert (P : UploadPage.pending st' = []).
  { unfold UploadPage.pending. rewrite F. apply filter_none.
    intros g Hg Hn.
    destruct (UploadPage.results st !! UploadPage.id g) as [r|] eqn:E.
    - destruct (Mono (UploadPage.id g)) as [x Hx]; [rewrite E; eexists; reflexivity|].
      congruence.
    - destruct (Done g) as [x Hx]; [|congruence].
      unfold UploadPage.pending. apply list_elem_of_filter. split; assumption. }
  split; [exact F|]. split; [exact P|]. split; [apply pending_nil_iff; exact P|].
  split.
  - intros k Hk. apply Frame. intros g Hg E.
    unfold UploadPage.pending in Hg. apply list_elem_of_filter in Hg.
    destruct Hg as [Hn _]. rewrite E in Hn. rewrite Hn in Hk.
    destruct Hk as [x Hx]. discriminate.
  - unfold UploadPage.uploadAll. rewrite P. reflexivity.
Qed.

Lemma uploadFile_records_witness :
  UploadPage.results
    (run sampleServer 0
       (@UploadPage.uploadFile exactDigits (sampleItem "k1" "a.pdf" "pdf"))
       sampleQueue).1.1 !! js "k2" = None.
Proof.
  destruct (uploadFile_records exactDigits (sampleItem "k1" "a.pdf" "pdf")
              sampleQueue sampleServer) as [_ [_ [_ [K _]]]].
  destruct (K (js "k2")) as [R _].
  - vm_compute. discriminate.
  - rewrite R. reflexivity.
Defined.

Lemma uploadAll_completes_witness :
  let st := UploadPage.setResults
              (fun prev => <[js "k1" := UploadPage.Failure (js "Upload failed")]> prev)
              sampleQueue in
  UploadPage.results
    (run sampleServer 0 (@UploadPage.uploadAll exactDigits st) st).1.1 !! js "k1" =
  Some (UploadPage.Failure (js "Upload failed")).
Proof.
  intros st.
  destruct (uploadAll_completes exactDigits st sampleServer sampleServer)
    as [_ [_ [_ [K _]]]].
  rewrite K.
  - reflexivity.
  - eexists. reflexivity.
Defined.

(** ** AdminPage: roles and refresh *)

Section AdminRoles.
Import AdminPage.

Lemma fetchOnly_step role rt rt' :
  isAdmin role = false ->
  fetchOnly rt -> step (controls role) rt rt' -> fetchOnly rt'.
Proof.
  intros Hr [I B] S. destruct S as [rt ev p Hp|rt i r k o Hi|rt i rs k o Hi].
  - unfold controls in Hp. rewrite Hr in Hp. discriminate.
  - exfalso. destruct I as [I|I]; rewrite I in Hi.
    + discriminate.
    + destruct i; [discriminate|]. destruct i; discriminate.
  - destruct I as [I|I]; rewrite I in Hi; [discriminate|].
    destruct i as [|i]; [|destruct i; discriminate].
    injection Hi as <- <-.
    destruct (exec_fetchData_settle o (current rt)) as [X R].
    unfold start, fetchOnly. cbn [current inflight]. rewrite I.
    destruct (exec (fetchData_settle o) (current rt)) as [[st' es] t].
    cbn in X, R. subst t. cbn. split; [left; reflexivity|].
    rewrite R. exact B.
Qed.

End AdminRoles.

(** X12: a mounted admin page whose user lacks the admin role never
    requests a rebuild and never sets [rebuilding]; the only call it is
    ever waiting for is the refresh made on mount, and once that has
    settled the page issues no further request. *)
Theorem non_admin_never_rebuilds (role : option jsstring) (rt : adminRuntime) :
  AdminPage.isAdmin role = false ->
  reachable (AdminPage.controls role) AdminPage.mounted rt ->
  AdminPage.rebuildsInFlight rt = 0%nat /\
  AdminPage.rebuilding (current rt) = false /\
  (inflight rt = [] \/
   inflight rt = [WaitingAll [AdminPage.GetAuditLogs; AdminPage.GetUsers]
                             AdminPage.fetchData_settle]) /\
  (forall ev, AdminPage.controls role (current rt) ev = None) /\
  (inflight rt = [] -> forall rt', ~ step (AdminPage.controls role) rt rt').
Proof.
  intros Hr R.
  assert (F : fetchOnly rt).
  { induction R as [|rt rt' _ IH S].
    - split; [right; reflexivity|reflexivity].
    - exact (fetchOnly_step role rt rt' Hr IH S). }
  destruct F as [I B]. split; [|split; [exact B|split; [exact I|split]]].
  - unfold AdminPage.rebuildsInFlight. destruct I as [-> | ->]; reflexivity.
  - intros ev. unfold AdminPage.controls. rewrite Hr. reflexivity.
  - intros E rt' S. inversion S as [rt0 ev p Hp|rt0 i r k o Hi|rt0 i rs k o Hi]; subst.
    + unfold AdminPage.controls in Hp. rewrite Hr in Hp. discriminate.
    + rewrite E in Hi. discriminate.
    + rewrite E in Hi. discriminate.
Qed.

Lemma non_admin_never_rebuilds_witness :
  AdminPage.isAdmin (Some (js "user")) = false /\
  AdminPage.rebuildsInFlight AdminPage.mounted = 0%nat /\
  AdminPage.controls (Some (js "user")) (current AdminPage.mounted)
    AdminPage.ClickRebuild = None.
Proof.
  split; [reflexivity|].
  destruct (non_admin_never_rebuilds (Some (js "user")) AdminPage.mounted)
    as [Z [_ [_ [N _]]]].
  - reflexivity.
  - apply reach_init.
  - split; [exact Z|apply N].
Defined.

(** X13: in every state a mounted admin page can reach, the settlement
    of the rebuild request, whether it succeeds or fails, clears
    [rebuilding] and at once starts a refresh: the page is then loading
    and waiting for the audit log and the user list, with no rebuild
    request left in flight. *)
Theorem rebuild_settles_into_refresh (role : option jsstring)
    (rt : adminRuntime) (i : nat) (r : AdminPage.request)
    (k : settlement error AdminPage.response -> AdminPage.handler)
    (o : settlement error AdminPage.response) :
  reachable (AdminPage.controls role) AdminPage.mounted rt ->
  inflight rt !! i = Some (Waiting r k) ->
  let rt' := start (k o) {| current := current rt;
                            inflight := delete i (inflight rt) |} in
  r = AdminPage.PostRebuild /\
  step (AdminPage.controls role) rt rt' /\
  AdminPage.rebuilding (current rt') = false /\
  AdminPage.loading (current rt') = true /\
  AdminPage.rebuildsInFlight rt' = 0%nat /\
  last (inflight rt') =
    Some (WaitingAll [AdminPage.GetAuditLogs; AdminPage.GetUsers]
                     AdminPage.fetchData_settle) /\
  AdminPage.logs (current rt') = AdminPage.logs (current rt) /\
  AdminPage.users (current rt') = AdminPage.users (current rt).
Proof.
  intros R Hi rt'.
  pose proof (invariant_reachable role rt R) as Inv.
  assert (S : step (AdminPage.controls role) rt rt').
  { exact (step_settle (AdminPage.controls role) rt i r k o Hi). }
  pose proof (invariant_step role rt rt' Inv S) as [_ C'].
  destruct Inv as [K _].
  assert (Kt : AdminPage.knownTask (Waiting r k)).
  { rewrite Forall_forall in K. apply K. eapply list_elem_of_lookup_2. exact Hi. }
  destruct Kt as [E|E]; [|discriminate]. injection E as -> ->.
  assert (B : AdminPage.rebuilding (current rt') = false).
  { subst rt'. unfold start. destruct o; reflexivity. }
  split; [reflexivity|]. split; [exact S|]. split; [exact B|].
  rewrite C', B. subst rt'. unfold start.
  destruct o; cbn [current inflight]; cbn; rewrite last_snoc; repeat split.
Qed.

Lemma rebuild_settles_into_refresh_witness :
  let rt' := start (AdminPage.rebuildIndex_settle
                      (Rejected {| status := Some 500; detail := None |}))
               {| current := current rebuildClicked;
                  inflight := delete 1%nat (inflight rebuildClicked) |} in
  AdminPage.rebuilding (current rt') = false /\
  AdminPage.loading (current rt') = true.
Proof.
  intros rt'.
  assert (R : reachable (AdminPage.controls (Some (js "admin")))
                AdminPage.mounted rebuildClicked).
  { eapply reach_step; [apply reach_init|].
    apply (step_user (AdminPage.controls (Some (js "admin"))) AdminPage.mounted
             AdminPage.ClickRebuild AdminPage.rebuildIndex).
    reflexivity. }
  destruct (rebuild_settles_into_refresh (Some (js "admin")) rebuildClicked 1%nat
              AdminPage.PostRebuild AdminPage.rebuildIndex_settle
              (Rejected {| status := Some 500; detail := None |}) R eq_refl)
    as [_ [_ [B [L _]]]].
  split; [exact B|exact L].
Defined.

(** X14: when the refresh of the admin page settles, [loading] is
    cleared whatever the outcome and [rebuilding] and the selected tab
    are untouched. If both requests succeeded the audit log and the user
    list are replaced by the rows received; if the refresh failed they
    are kept, and the user is told so only when the status of the error
    is 403: any other failure is silent. *)
Theorem fetchData_settles (o : settlement error (list AdminPage.response))
    (st : AdminPage.state) :
  let out := exec (AdminPage.fetchData_settle o) st in
  AdminPage.loading out.1.1 = false /\
  AdminPage.rebuilding out.1.1 = AdminPage.rebuilding st /\
  AdminPage.tab out.1.1 = AdminPage.tab st /\
  out.2 = None /\
  match o with
  | Fulfilled (logsRes :: usersRes :: _) =>
      AdminPage.logs out.1.1 = AdminPage.rowsOf logsRes /\
      AdminPage.users out.1.1 = AdminPage.rowsOf usersRes /\
      out.1.2 = []
  | Fulfilled _ =>
      AdminPage.logs out.1.1 = AdminPage.logs st /\
      AdminPage.users out.1.1 = AdminPage.users st /\
      out.1.2 = []
  | Rejected err =>
      AdminPage.logs out.1.1 = AdminPage.logs st /\
      AdminPage.users out.1.1 = AdminPage.users st /\
      (status err = Some 403 ->
       out.1.2 = [AdminPage.ToastError (js "Admin access required")]) /\
      (status err <> Some 403 -> out.1.2 = [])
  end.
Proof.
  intros out. subst out.
  destruct o as [[|a [|b l]]|err]; try (repeat split; fail).
  unfold AdminPage.fetchData_settle. case_bool_decide; repeat split;
    try reflexivity; intros; congruence.
Qed.

Lemma fetchData_settles_witness :
  (exec (AdminPage.fetchData_settle
           (Rejected {| status := Some 403; detail := None |}))
        AdminPage.initial).1.2 =
  [AdminPage.ToastError (js "Admin access required")].
Proof.
  destruct (fetchData_settles (Rejected {| status := Some 403; detail := None |})
              AdminPage.initial) as [_ [_ [_ [_ [_ [_ [T _]]]]]]].
  apply T. reflexivity.
Defined.

(** ** Sidebar *)

Section SidebarFacts.
Context `{CaseMapping}.
Import Sidebar.

Lemma Sidebar_targets (role : option jsstring) (pathname : jsstring)
    (collapsed : bool) :
  map target (Sidebar role pathname collapsed) =
    if bool_decide (role = Some (js "admin"))
    then [js "/"; js "/upload"; js "/query"; js "/documents"; js "/admin"]
    else [js "/"; js "/upload"; js "/query"; js "/documents"].
Proof.
  unfold Sidebar, navItems, renderItem. cbn [omap list_omap path label].
  destruct (bool_decide (role = Some (js "admin"))); reflexivity.
Qed.

Lemma Sidebar_active (role : option jsstring) (pathname : jsstring)
    (collapsed : bool) :
  Forall (fun b => active b = bool_decide (pathname = target b))
         (Sidebar role pathname collapsed).
Proof.
  unfold Sidebar, navItems, renderItem. cbn [omap list_omap path label].
  destruct (bool_decide (role = Some (js "admin"))); cbn;
    repeat constructor.
Qed.

Lemma one_active (pathname : jsstring) (l : list navButton) :
  NoDup (map target l) ->
  Forall (fun b => active b = bool_decide (pathname = target b)) l ->
  (length (filter (fun b => active b) l) <= 1)%nat /\
  (pathname ∈ map target l -> length (filter (fun b => active b) l) = 1%nat).
Proof.
  induction l as [|b l IH]; intros N F.
  - split; [cbn; lia|]. intros E. inversion E.
  - cbn [map] in N. apply NoDup_cons in N. destruct N as [Nb N].
    apply Forall_cons in F. destruct F as [Fb F].
    destruct (IH N F) as [Le Eq]. rewrite filter_cons.
    destruct (decide (active b)) as [A|A].
    + apply Is_true_true in A. rewrite Fb in A. apply bool_decide_eq_true in A.
      assert (Z : filter (fun b => active b) l = []).
      { apply filter_none. intros b' Hb' Ab'. apply Is_true_true in Ab'.
        rewrite Forall_forall in F. rewrite (F b' Hb') in Ab'.
        apply bool_decide_eq_true in Ab'. apply Nb. rewrite <- A, Ab'.
        apply list_elem_of_fmap. exists b'. split; [reflexivity|exact Hb']. }
      rewrite Z. cbn. split; [lia|reflexivity].
    + split; [exact Le|]. intros E. apply Eq. cbn [map] in E.
      apply elem_of_cons in E. destruct E as [E|E]; [|exact E].
      exfalso. apply A. apply Is_true_true. rewrite Fb.
      apply bool_decide_eq_true. exact E.
Qed.

End SidebarFacts.


(** X16: whatever the location and the role, the side bar highlights at
    most one entry; an entry is highlighted exactly when its path is the
    current location, so exactly one is when the location is the path of
    a rendered entry, and none on any other location. *)
Theorem sidebar_one_active (L : CaseMapping) (role : option jsstring)
    (pathname : jsstring) (collapsed : bool) :
  let buttons := Sidebar.Sidebar role pathname collapsed in
  (length (filter (fun b => Sidebar.active b) buttons) <= 1)%nat /\
  Forall (fun b => Sidebar.active b = true <-> Sidebar.target b = pathname)
         buttons /\
  (pathname ∈ map Sidebar.target buttons ->
   length (filter (fun b => Sidebar.active b) buttons) = 1%nat) /\
  (~ pathname ∈ map Sidebar.target buttons ->
   filter (fun b => Sidebar.active b) buttons = []).
Proof.
  intros buttons.
  assert (N : NoDup (map Sidebar.target buttons)).
  { subst buttons. rewrite Sidebar_targets.
    destruct (bool_decide (role = Some (js "admin")));
      apply (bool_decide_unpack _); vm_compute; exact I. }
  pose proof (Sidebar_active role pathname collapsed) as F. fold buttons in F.
  destruct (one_active pathname buttons N F) as [Le Eq].
  split; [exact Le|]. split; [|split; [exact Eq|]].
  - eapply Forall_impl; [exact F|]. intros b Hb. cbn beta in Hb. rewrite Hb.
    split; [intros E; apply bool_decide_eq_true in E; congruence|].
    intros E. apply bool_decide_eq_true. congruence.
  - intros Hn. apply filter_none. intros b Hb Ab. apply Hn.
    apply Is_true_true in Ab. rewrite Forall_forall in F.
    rewrite (F b Hb) in Ab. apply bool_decide_eq_true in Ab. rewrite Ab.
    apply list_elem_of_fmap. exists b. split; [reflexivity|exact Hb].
Qed.

Lemma sidebar_one_active_witness :
  length (filter (fun b => Sidebar.active b)
            (@Sidebar.Sidebar basicLatin (Some (js "user")) (js "/query") false))
  = 1%nat.
Proof.
  destruct (sidebar_one_active basicLatin (Some (js "user")) (js "/query") false)
    as [_ [_ [E _]]].
  apply E. apply (bool_decide_unpack _). vm_compute. exact I.
Defined.

(** ** App: the authentication context *)

Section AuthFacts.
Import App.

Lemma exec_checkSession_settle (o : settlement error account) (st : state) :
  exec (checkSession_settle o) st =
    (match o with
     | Fulfilled res =>
         {| token := token st; user := Some res; loading := false;
            localStorage := localStorage st |}
     | Rejected _ =>
         {| token := None; user := None; loading := false;
            localStorage := delete tokenKey (localStorage st) |}
     end, [], None).
Proof. destruct o; reflexivity. Qed.

Lemma exec_checkSession (snap st : state) :
  exec (checkSession snap) st =
    match token snap with
    | Some (c :: t) =>
        (st, [], Some (Waiting {| authorization := js "Bearer " ++ c :: t |}
                               checkSession_settle))
    | _ => (setLoading false st, [], None)
    end.
Proof. unfold checkSession. destruct (token snap) as [[|c t]|]; reflexivity. Qed.

Lemma run_checkSession_settle server n (o : settlement error account)
    (st : state) :
  run server n (checkSession_settle o) st =
    (match o with
     | Fulfilled res =>
         {| token := token st; user := Some res; loading := false;
            localStorage := localStorage st |}
     | Rejected _ =>
         {| token := None; user := None; loading := false;
            localStorage := delete tokenKey (localStorage st) |}
     end, [], n).
Proof. destruct o; reflexivity. Qed.

Lemma auth_invariant_mounted (storage : gmap jsstring jsstring) :
  authInvariant (mounted storage).
Proof.
  unfold mounted, start. rewrite exec_checkSession.
  destruct (token (initial storage)) as [[|c t]|]; split; cbn;
    try reflexivity; repeat constructor; eexists; reflexivity.
Qed.

Lemma auth_invariant_step rt rt' :
  authInvariant rt -> step controls rt rt' -> authInvariant rt'.
Proof.
  intros [S K] St. destruct St as [rt ev p Hp|rt i r k o Hi|rt i rs k o Hi].
  - destruct ev as [t u| |]; cbn [controls] in Hp; injection Hp as <-.
    + unfold start, authInvariant. cbn. rewrite app_nil_r.
      split; [|exact K]. rewrite lookup_insert_eq. reflexivity.
    + unfold start, authInvariant. cbn. rewrite app_nil_r.
      split; [|exact K]. rewrite lookup_delete_eq. reflexivity.
    + unfold start, authInvariant. rewrite exec_checkSession.
      destruct (token (current rt)) as [[|c t]|] eqn:T; cbn;
        rewrite ?app_nil_r; (split; [first [exact S | rewrite <- S; exact T]|]);
        try exact K.
      apply Forall_app. split; [exact K|]. apply Forall_singleton.
      eexists. reflexivity.
  - assert (Kt : exists r', Waiting r k = Waiting r' checkSession_settle).
    { rewrite Forall_forall in K. apply K. eapply list_elem_of_lookup_2. exact Hi. }
    destruct Kt as [r' E]. injection E as -> ->.
    unfold start, authInvariant. cbn [current inflight].
    rewrite exec_checkSession_settle. cbn [opt_list]. rewrite app_nil_r.
    split; [|apply Forall_delete; exact K].
    destruct o; cbn; [exact S|]. rewrite lookup_delete_eq. reflexivity.
  - exfalso. assert (Kt : exists r', WaitingAll rs k = Waiting r' checkSession_settle).
    { rewrite Forall_forall in K. apply K. eapply list_elem_of_lookup_2. exact Hi. }
    destruct Kt as [r' E]. discriminate.
Qed.

End AuthFacts.

(** X17: in every state the authentication provider can reach, through
    calls of [login] and [logout], runs of the effect and settlements of
    the session check in any order, the token cell equals the token kept
    in [localStorage]. So a protected route shows its children only
    while the storage holds a non-empty token, and the [Authorization]
    header of the API client is built from the stored token. *)
Theorem token_in_sync (storage : gmap jsstring jsstring)
    (rt : runtime App.state App.request App.account error App.effect) :
  reachable App.controls (App.mounted storage) rt ->
  App.token (current rt) = App.localStorage (current rt) !! App.tokenKey /\
  (App.ProtectedRoute (current rt) = App.Children ->
   exists t, App.localStorage (current rt) !! App.tokenKey = Some t /\ t <> []) /\
  (forall h, App.useApi (current rt) = Some h ->
   exists t, App.localStorage (current rt) !! App.tokenKey = Some t /\
             h = js "Bearer " ++ t).
Proof.
  intros R.
  assert (Inv : App.authInvariant rt).
  { induction R as [|rt rt' _ IH S].
    - apply auth_invariant_mounted.
    - exact (auth_invariant_step rt rt' IH S). }
  destruct Inv as [S _]. split; [exact S|]. split.
  - unfold App.ProtectedRoute, App.hasToken. rewrite <- S.
    destruct (App.loading (current rt)); [discriminate|].
    destruct (App.token (current rt)) as [[|c t]|]; try discriminate.
    intros _. eexists. split; [reflexivity|discriminate].
  - intros h. unfold App.useApi. rewrite <- S.
    destruct (App.token (current rt)) as [[|c t]|]; try discriminate.
    intros E. injection E as <-. eexists. split; reflexivity.
Qed.

Lemma token_in_sync_witness :
  let rt := start (App.login (js "tok") {| App.username := js "ann";
                                           App.role := js "user" |})
              (App.mounted ∅) in
  App.localStorage (current rt) !! App.tokenKey = Some (js "tok") /\
  App.token (current rt) = Some (js "tok").
Proof.
  intros rt. split; [reflexivity|].
  destruct (token_in_sync ∅ rt) as [S _].
  - eapply reach_step; [apply reach_init|].
    apply (step_user App.controls (App.mounted ∅)
             (App.CallLogin (js "tok") {| App.username := js "ann";
                                          App.role := js "user" |})).
    reflexivity.
  - rewrite S. reflexivity.
Defined.

(** X18: [login] stores the token so that a later page load starts with
    it, and [logout] removes it so that a later page load starts without
    a token; neither touches any other key of [localStorage]. Logging
    out after logging in leaves exactly the state of logging out at
    once. *)
Theorem login_logout_storage (newToken : jsstring) (userData : App.account)
    (st : App.state) :
  let inn := (exec (App.login newToken userData) st).1.1 in
  let out := (exec App.logout st).1.1 in
  App.token (App.initial (App.localStorage inn)) = Some newToken /\
  App.token (App.initial (App.localStorage out)) = None /\
  (forall k, k <> App.tokenKey ->
     App.localStorage inn !! k = App.localStorage st !! k /\
     App.localStorage out !! k = App.localStorage st !! k) /\
  (App.token inn = Some newToken /\ App.user inn = Some userData) /\
  (App.token out = None /\ App.user out = None) /\
  (exec App.logout inn).1.1 = out.
Proof.
  intros inn out. subst inn out. cbn.
  split; [apply lookup_insert_eq|]. split; [apply lookup_delete_eq|].
  split; [|split; [split; reflexivity|split; [split; reflexivity|]]].
  - intros k Hk. split.
    + apply lookup_insert_ne. congruence.
    + apply lookup_delete_ne. congruence.
  - unfold App.removeItem, App.setUser, App.setToken, App.setItem. cbn.
    rewrite delete_insert_eq. reflexivity.
Qed.

Lemma login_logout_storage_witness :
  let st := App.initial {[ js "theme" := js "dark" ]} in
  App.localStorage
    (exec (App.login (js "tok") {| App.username := js "ann"; App.role := js "user" |})
          st).1.1 !! js "theme" = Some (js "dark").
Proof.
  intros st.
  destruct (login_logout_storage (js "tok")
              {| App.username := js "ann"; App.role := js "user" |} st)
    as [_ [_ [K _]]].
  destruct (K (js "theme")) as [E _].
  - vm_compute. discriminate.
  - rewrite E. reflexivity.
Defined.

(** X19: the session check, run alone. Without a token, or with the
    empty string as token, it issues no request and only clears
    [loading]. With a token it issues one request whose [Authorization]
    header is ["Bearer "] followed by the token; on success the user of
    the response is stored and the protected routes show their children;
    on failure the user is logged out, the token is removed from the
    state and from [localStorage], and the protected routes redirect to
    the login page. *)
Theorem checkSession_outcome (st : App.state)
    (server : nat -> App.request -> settlement error App.account) :
  let out := run server 0 (App.checkSession st) st in
  App.loading out.1.1 = false /\
  (App.hasToken st = false ->
   out = (App.setLoading false st, [], 0%nat)) /\
  (forall t, App.hasToken st = true -> App.token st = Some t ->
   let r := {| App.authorization := js "Bearer " ++ t |} in
   issued out.1.2 = [r] /\
   match server 0%nat r with
   | Fulfilled res =>
       out.1.1 = {| App.token := Some t; App.user := Some res;
                    App.loading := false;
                    App.localStorage := App.localStorage st |} /\
       App.ProtectedRoute out.1.1 = App.Children
   | Rejected _ =>
       out.1.1 = {| App.token := None; App.user := None;
                    App.loading := false;
                    App.localStorage := delete App.tokenKey (App.localStorage st) |} /\
       App.ProtectedRoute out.1.1 = App.ToLogin
   end).
Proof.
  intros out. subst out. unfold App.checkSession, App.hasToken.
  destruct (App.token st) as [[|c t]|] eqn:T; cbn [run update].
  - split; [reflexivity|]. split; [reflexivity|]. discriminate.
  - split; [|split; [discriminate|]].
    + rewrite run_checkSession_settle. destruct (server 0%nat _); reflexivity.
    + intros t' _ E. injection E as <-. cbn zeta.
      rewrite run_checkSession_settle.
      destruct (server 0%nat _) as [res|err];
        unfold App.ProtectedRoute, App.hasToken;
        cbn [fst snd issued App.token App.user App.loading App.localStorage];
        rewrite ?T; repeat split.
  - split; [reflexivity|]. split; [reflexivity|]. discriminate.
Qed.

Lemma checkSession_outcome_witness :
  let st := App.initial {[ App.tokenKey := js "stale" ]} in
  App.ProtectedRoute
    (run (fun _ _ => Rejected {| status := Some 401; detail := None |}) 0
         (App.checkSession st) st).1.1 = App.ToLogin.
Proof.
  intros st.
  destruct (checkSession_outcome st
              (fun _ _ => Rejected {| status := Some 401; detail := None |}))
    as [_ [_ K]].
  destruct (K (js "stale") eq_refl eq_refl) as [_ [_ P]]. exact P.
Defined.

(** ** LoginPage *)

(** X20: a submission of the login form, run alone, issues one request,
    to the register endpoint with the user name, e-mail and password when
    the form is in register mode and to the login endpoint with e-mail
    and password otherwise, and always ends with [loading] cleared and
    the fields untouched. When the request fails the only effect after
    [preventDefault] is an error toast whose text is never empty: the
    page neither logs in nor navigates. When it succeeds the page logs in
    with the token and user of the response, announces it, and then
    navigates to the root. *)
Theorem handleSubmit_outcome (API : jsstring) (st : LoginPage.state)
    (server : nat -> LoginPage.request -> settlement error LoginPage.response) :
  let r := {| LoginPage.url :=
                API ++ (if LoginPage.isRegister st then js "/auth/register"
                        else js "/auth/login");
              LoginPage.payload :=
                (if LoginPage.isRegister st
                 then [(js "username", LoginPage.username st)] else []) ++
                [(js "email", LoginPage.email st);
                 (js "password", LoginPage.password st)] |} in
  let out := run server 0 (LoginPage.handleSubmit API st) st in
  issued out.1.2 = [r] /\
  out.1.1 = LoginPage.setLoading false st /\
  match server 0%nat r with
  | Fulfilled res =>
      effectsOf out.1.2 =
        [LoginPage.PreventDefault;
         LoginPage.Login (LoginPage.token res) (LoginPage.user res);
         LoginPage.ToastSuccess (if LoginPage.isRegister st
                                 then js "Account created"
                                 else js "Access granted");
         LoginPage.Navigate (js "/")]
  | Rejected err =>
      exists text,
        effectsOf out.1.2 = [LoginPage.PreventDefault; LoginPage.ToastError text] /\
        text <> [] /\
        (forall d c, detail err = Some (c :: d) -> text = c :: d) /\
        existsb LoginPage.logsIn (effectsOf out.1.2) = false /\
        existsb LoginPage.navigates (effectsOf out.1.2) = false
  end.
Proof.
  intros r out. subst r out. unfold LoginPage.handleSubmit.
  cbn [seq emit update run].
  destruct (LoginPage.isRegister st) eqn:M; cbn [app];
    destruct (server 0%nat _) as [res|err]; cbn;
    unfold LoginPage.setLoading; cbn; rewrite ?M;
    (split; [reflexivity|]); (split; [reflexivity|]); try reflexivity;
    (eexists; split; [reflexivity|]);
    (split; [unfold LoginPage.failureText;
             destruct (detail err) as [[|c s]|]; discriminate|]);
    (split; [intros d c E; unfold LoginPage.failureText; rewrite E; reflexivity|]);
    split; reflexivity.
Qed.

Lemma handleSubmit_outcome_witness :
  let st := {| LoginPage.isRegister := false; LoginPage.email := js "a@b.c";
               LoginPage.password := js "pw"; LoginPage.username := [];
               LoginPage.loading := false |} in
  exists text,
    effectsOf
      (run (fun _ _ => Rejected {| status := Some 401;
                                   detail := Some (js "Invalid credentials") |})
           0 (LoginPage.handleSubmit (js "http://host/api") st) st).1.2 =
      [LoginPage.PreventDefault; LoginPage.ToastError text] /\
    text = js "Invalid credentials".
Proof.
  intros st.
  pose proof (handleSubmit_outcome (js "http://host/api") st
                (fun _ _ => Rejected {| status := Some 401;
                                        detail := Some (js "Invalid credentials") |}))
    as [_ [_ [text [E [_ [D _]]]]]].
  exists text. split; [exact E|].
  apply (D (tail (js "Invalid credentials")) 73). reflexivity.
Defined.

(** ** AdminPage across visits *)

(** Each instance of the page, shown or left, keeps the invariant of a
    mounted page: the bound on rebuild requests holds per instance. *)
Lemma visited_instances (role : option jsstring) (s : visits) :
  visited role s ->
  (forall rt, shown s = Some rt -> AdminPage.pageInvariant rt) /\
  Forall AdminPage.pageInvariant (detached s).
Proof.
  induction 1 as [|s s' _ [IHs IHd] V].
  - split; [discriminate|constructor].
  - destruct V as [l|rt l|rt rt' l S|s i rt rt' Hi S]; cbn in *.
    + split; [|exact IHd]. intros rt E. injection E as <-.
      apply invariant_mounted.
    + split; [discriminate|]. constructor; [|exact IHd]. apply IHs. reflexivity.
    + split; [|exact IHd]. intros rt0 E. injection E as <-.
      apply (invariant_step role rt rt'); [apply IHs; reflexivity|exact S].
    + split; [exact IHs|]. apply Forall_insert; [exact IHd|].
      assert (I : AdminPage.pageInvariant rt).
      { rewrite Forall_forall in IHd. apply IHd.
        eapply list_elem_of_lookup_2. exact Hi. }
      apply (invariant_step role rt rt' I).
      destruct S as [rt ev p Hp|rt j r k o Hj|rt j rs k o Hj].
      * discriminate.
      * apply (step_settle _ rt j r k o Hj).
      * apply (step_settle_all _ rt j rs k o Hj).
Qed.

(** C5, as stated, fails: the [rebuilding] flag belongs to one mounted
    instance of the page and a pending rebuild request is not aborted
    when the page is left. An administrator who clicks the button,
    leaves, returns and clicks again has two rebuild requests in flight
    from this page; the button of the fresh instance was enabled. *)
Lemma rebuild_after_return :
  visited (Some (js "admin")) rebuiltAgain /\
  rebuildsPending rebuiltAgain = 2%nat /\
  AdminPage.rebuildDisabled (current AdminPage.mounted) = false.
Proof.
  split; [|split; reflexivity].
  assert (S : step (AdminPage.controls (Some (js "admin")))
                AdminPage.mounted rebuildClicked).
  { apply (step_user (AdminPage.controls (Some (js "admin"))) AdminPage.mounted
             AdminPage.ClickRebuild AdminPage.rebuildIndex).
    reflexivity. }
  eapply visited_step; [|apply (visit_page _ AdminPage.mounted); exact S].
  eapply visited_step; [|apply visit_enter].
  eapply visited_step; [|apply visit_leave].
  eapply visited_step; [|apply (visit_page _ AdminPage.mounted); exact S].
  eapply visited_step; [|apply visit_enter].
  apply visited_start.
Qed.
